(** * Full-stack todo backend: tasks, ownership, password hashing, session tokens

    A shallow embedding of the FastAPI backend under [backend/app]:
    - [models/task.py]   : the [Task] row and the [TaskCreate] / [TaskUpdate] schemas;
    - [routes/tasks.py]  : the six task endpoints;
    - [utils/security.py]: [hash_password] and [verify_password];
    - [routes/auth.py]   : [create_jwt_token];
    - [middleware/auth.py]: the token decoding of [get_current_user_id];
    - [models/user.py]   : the [User] row and its schemas;
    - [routes/auth.py]   : [signup], [signin], [signout] and [get_current_user].

    Conventions.  A Python [str] is a Rocq [string] holding the bytes of the
    text: each character in its UTF-8 encoding, and a surrogate (U+D800 to
    U+DFFF, which a [str] can hold and UTF-8 does not encode) in the same
    three-byte form.  Comparing two strings compares the texts;
    [s.encode('utf-8')] is the list of bytes of [s] when [s] holds no
    surrogate, and raises [UnicodeEncodeError] when it holds one.  A
    [datetime] is an integer number of microseconds since the epoch; every
    call of [datetime.utcnow()] is an explicit argument of the function that
    makes it.
    The [tasks] and [users] tables are finite maps from the primary key to
    the row. *)

From Stdlib Require Import ZArith NArith List Bool Lia.
From Stdlib.Strings Require Import Ascii Byte String.
From stdpp Require Import base option list gmap strings.

Local Open Scope Z_scope.

(** ** HTTP outcomes *)

Module Http.

Definition HTTP_200_OK : Z := 200.
Definition HTTP_201_CREATED : Z := 201.
Definition HTTP_204_NO_CONTENT : Z := 204.
Definition HTTP_401_UNAUTHORIZED : Z := 401.
Definition HTTP_403_FORBIDDEN : Z := 403.
Definition HTTP_404_NOT_FOUND : Z := 404.
Definition HTTP_500_INTERNAL_SERVER_ERROR : Z := 500.

(** What a dependency ([Depends(...)]) does: it provides a value to the
    endpoint, or it raises [HTTPException] and the endpoint does not run.

    What an endpoint function does: it returns a body that the framework
    sends with the route's status code, it raises [HTTPException], or the
    commit raises an [IntegrityError] that nothing catches. *)
Inductive dependency (A : Type) : Type :=
  | Provides (a : A)
  | Aborts (status_code : Z) (detail : string).

Arguments Provides {A} a.
Arguments Aborts {A} status_code detail.

Inductive Outcome (A : Type) : Type :=
  | Returns (status_code : Z) (body : A)
  | HTTPException (status_code : Z) (detail : string)
  | IntegrityError.

Arguments Returns {A} status_code body.
Arguments HTTPException {A} status_code detail.
Arguments IntegrityError {A}.

(** The status line the client sees. *)
Definition status_of {A} (o : Outcome A) : Z :=
  match o with
  | Returns c _ => c
  | HTTPException c _ => c
  | IntegrityError => HTTP_500_INTERNAL_SERVER_ERROR
  end.

(** The body of a successful answer, if there is one. *)
Definition body_of {A} (o : Outcome A) : option A :=
  match o with
  | Returns _ b => Some b
  | _ => None
  end.

End Http.
Import Http.

(** ** models/task.py *)

Module Models.

(** [class Task(TaskBase, table=True)]: one row of the [tasks] table. *)
Record Task : Type := mkTask {
  id : Z;
  user_id : string;
  title : string;
  description : option string;
  completed : bool;
  created_at : Z;
  updated_at : Z
}.

(** [class TaskCreate(TaskBase)]: [title: str], [description: Optional[str] = None],
    [completed: bool = False]; no constraint on the title. *)
Record TaskCreate : Type := mkTaskCreate {
  tc_title : string;
  tc_description : option string;
  tc_completed : bool
}.

(** The JSON body of a creation request, before validation: the fields the
    client may leave out are optional. *)
Record CreateBody : Type := mkCreateBody {
  cb_title : string;
  cb_description : option string;
  cb_completed : option bool
}.

(** Validation of a creation body against [TaskCreate]: defaults fill the
    fields left out, every string is a valid title. *)
Definition TaskCreate_validate (b : CreateBody) : TaskCreate :=
  {| tc_title := cb_title b;
     tc_description := cb_description b;
     tc_completed := default false (cb_completed b) |}.

(** [class TaskUpdate(SQLModel)]: all three fields are [Optional[...] = None].
    The outer option records whether the body set the field, the inner one
    whether it set it to [null]. *)
Record TaskUpdate : Type := mkTaskUpdate {
  tu_title : option (option string);
  tu_description : option (option string);
  tu_completed : option (option bool)
}.

(** One entry of [task_update.model_dump(exclude_unset=True)]. *)
Inductive assignment : Type :=
  | SetTitle (v : option string)
  | SetDescription (v : option string)
  | SetCompleted (v : option bool).

(** [model_dump(exclude_unset=True)]: the fields the body set, in the order
    of their declaration. *)
Definition model_dump_exclude_unset (u : TaskUpdate) : list assignment :=
  match tu_title u with Some v => [SetTitle v] | None => [] end ++
  match tu_description u with Some v => [SetDescription v] | None => [] end ++
  match tu_completed u with Some v => [SetCompleted v] | None => [] end.

(** A [Task] object in memory: [setattr] may put [None] in an attribute whose
    column is [NOT NULL]; the database refuses it only at commit. *)
Record TaskObject : Type := mkTaskObject {
  o_id : Z;
  o_user_id : string;
  o_title : option string;
  o_description : option string;
  o_completed : option bool;
  o_created_at : Z;
  o_updated_at : Z
}.

Definition load (t : Task) : TaskObject :=
  {| o_id := id t; o_user_id := user_id t; o_title := Some (title t);
     o_description := description t; o_completed := Some (completed t);
     o_created_at := created_at t; o_updated_at := updated_at t |}.

(** [setattr(db_task, field, value)]. *)
Definition setattr (o : TaskObject) (a : assignment) : TaskObject :=
  match a with
  | SetTitle v =>
      {| o_id := o_id o; o_user_id := o_user_id o; o_title := v;
         o_description := o_description o; o_completed := o_completed o;
         o_created_at := o_created_at o; o_updated_at := o_updated_at o |}
  | SetDescription v =>
      {| o_id := o_id o; o_user_id := o_user_id o; o_title := o_title o;
         o_description := v; o_completed := o_completed o;
         o_created_at := o_created_at o; o_updated_at := o_updated_at o |}
  | SetCompleted v =>
      {| o_id := o_id o; o_user_id := o_user_id o; o_title := o_title o;
         o_description := o_description o; o_completed := v;
         o_created_at := o_created_at o; o_updated_at := o_updated_at o |}
  end.

Definition set_updated_at (o : TaskObject) (now : Z) : TaskObject :=
  {| o_id := o_id o; o_user_id := o_user_id o; o_title := o_title o;
     o_description := o_description o; o_completed := o_completed o;
     o_created_at := o_created_at o; o_updated_at := now |}.

(** The row the commit writes; [None] when a [NOT NULL] column ([title],
    [completed]) holds [None]. *)
Definition flush (o : TaskObject) : option Task :=
  match o_title o, o_completed o with
  | Some t, Some c =>
      Some {| id := o_id o; user_id := o_user_id o; title := t;
              description := o_description o; completed := c;
              created_at := o_created_at o; updated_at := o_updated_at o |}
  | _, _ => None
  end.

End Models.
Import Models.

(** ** The tasks table *)

Module Store.

(** The largest primary key in use, 0 for the empty table. *)
Definition max_id (rows : gmap Z Task) : Z :=
  map_fold (fun k _ acc => Z.max k acc) 0 rows.

(** The key the database gives to the next inserted row, a key that is not
    in use: one more than the largest key, the rule of SQLite, the database of
    the repository's tests. *)
Definition next_id (rows : gmap Z Task) : Z := 1 + max_id rows.

(** [session.get(Task, task_id)], for a [task_id] that the integers of the
    database can hold.  (Beyond them the driver raises instead of answering;
    no row has such a key.) *)
Definition get (rows : gmap Z Task) (task_id : Z) : option Task := rows !! task_id.

(** [select(Task).where(Task.user_id == user_id)] then [.all()].  The query
    asks for no order; the rows come in the order of the map's listing. *)
Definition select_by_user (rows : gmap Z Task) (uid : string) : list Task :=
  List.filter (fun t => bool_decide (user_id t = uid)) (map_to_list rows).*2.

End Store.

(** ** routes/tasks.py *)

Module Routes.

Definition forbidden {A} (detail : string) : Outcome A :=
  HTTPException HTTP_403_FORBIDDEN detail.

Definition not_found {A} : Outcome A :=
  HTTPException HTTP_404_NOT_FOUND "Task not found".

(** [GET /api/{user_id}/tasks]. *)
Definition list_tasks (user_id current_user_id : string) (session : gmap Z Task)
  : Outcome (list Task) * gmap Z Task :=
  if decide (user_id ≠ current_user_id) then
    (forbidden "Unauthorized access to user's tasks", session)
  else
    (Returns HTTP_200_OK (Store.select_by_user session user_id), session).

(** [POST /api/{user_id}/tasks].  The [Task] built from [task.model_dump()]
    and [user_id=user_id] takes the three schema fields from the body, the owner from the path and
    the two timestamps from their default factories, called in turn
    ([utcnow_created], [utcnow_updated]); the commit assigns the key. *)
Definition create_task (user_id : string) (task : TaskCreate) (current_user_id : string)
    (utcnow_created utcnow_updated : Z) (session : gmap Z Task)
  : Outcome Task * gmap Z Task :=
  if decide (user_id ≠ current_user_id) then
    (forbidden "Unauthorized access", session)
  else
    let db_task :=
      {| id := Store.next_id session;
         user_id := user_id;
         title := tc_title task;
         description := tc_description task;
         completed := tc_completed task;
         created_at := utcnow_created;
         updated_at := utcnow_updated |} in
    (Returns HTTP_201_CREATED db_task, <[id db_task := db_task]> session).

(** [GET /api/{user_id}/tasks/{task_id}]. *)
Definition get_task (user_id : string) (task_id : Z) (current_user_id : string)
    (session : gmap Z Task) : Outcome Task * gmap Z Task :=
  if decide (user_id ≠ current_user_id) then
    (forbidden "Unauthorized access", session)
  else
    match Store.get session task_id with
    | None => (not_found, session)
    | Some task =>
        if decide (Models.user_id task ≠ user_id) then (not_found, session)
        else (Returns HTTP_200_OK task, session)
    end.

(** [PUT /api/{user_id}/tasks/{task_id}]. *)
Definition update_task (user_id : string) (task_id : Z) (task_update : TaskUpdate)
    (current_user_id : string) (utcnow : Z) (session : gmap Z Task)
  : Outcome Task * gmap Z Task :=
  if decide (user_id ≠ current_user_id) then
    (forbidden "Unauthorized access", session)
  else
    match Store.get session task_id with
    | None => (not_found, session)
    | Some db_task =>
        if decide (Models.user_id db_task ≠ user_id) then (not_found, session)
        else
          let update_data := model_dump_exclude_unset task_update in
          let obj := fold_left setattr update_data (load db_task) in
          let obj := set_updated_at obj utcnow in
          match flush obj with
          | None => (IntegrityError, session)
          | Some row => (Returns HTTP_200_OK row, <[task_id := row]> session)
          end
    end.

(** [DELETE /api/{user_id}/tasks/{task_id}]. *)
Definition delete_task (user_id : string) (task_id : Z) (current_user_id : string)
    (session : gmap Z Task) : Outcome unit * gmap Z Task :=
  if decide (user_id ≠ current_user_id) then
    (forbidden "Unauthorized access", session)
  else
    match Store.get session task_id with
    | None => (not_found, session)
    | Some task =>
        if decide (Models.user_id task ≠ user_id) then (not_found, session)
        else (Returns HTTP_204_NO_CONTENT tt, delete task_id session)
    end.

(** [PATCH /api/{user_id}/tasks/{task_id}/complete]. *)
Definition toggle_complete (user_id : string) (task_id : Z) (current_user_id : string)
    (utcnow : Z) (session : gmap Z Task) : Outcome Task * gmap Z Task :=
  if decide (user_id ≠ current_user_id) then
    (forbidden "Unauthorized access", session)
  else
    match Store.get session task_id with
    | None => (not_found, session)
    | Some db_task =>
        if decide (Models.user_id db_task ≠ user_id) then (not_found, session)
        else
          let row :=
            {| id := id db_task; user_id := Models.user_id db_task;
               title := title db_task; description := description db_task;
               completed := negb (completed db_task);
               created_at := created_at db_task;
               updated_at := utcnow |} in
          (Returns HTTP_200_OK row, <[task_id := row]> session)
    end.

End Routes.

(** ** Python results and exceptions *)

Module Py.

(** The exception classes the modelled code can meet.  [BinasciiError]
    ([binascii.Error]), [UnicodeDecodeError] and [UnicodeEncodeError] are
    subclasses of [ValueError]; [IndexError] is not. *)
Inductive exception : Type :=
  | ValueError
  | BinasciiError
  | UnicodeDecodeError
  | UnicodeEncodeError
  | IndexError
  | TypeError.

Definition issubclass (e base : exception) : bool :=
  match e, base with
  | ValueError, ValueError => true
  | BinasciiError, (BinasciiError | ValueError) => true
  | UnicodeDecodeError, (UnicodeDecodeError | ValueError) => true
  | UnicodeEncodeError, (UnicodeEncodeError | ValueError) => true
  | IndexError, IndexError => true
  | _, _ => false
  end.

Inductive result (A : Type) : Type :=
  | Return (a : A)
  | Raise (e : exception).

Arguments Return {A} a.
Arguments Raise {A} e.

Definition bind {A B} (r : result A) (k : A -> result B) : result B :=
  match r with
  | Return a => k a
  | Raise e => Raise e
  end.

(** [try: body except (c1, ..., cn): return handler]. *)
Definition try_except {A} (body : result A) (classes : list exception) (handler : A)
  : result A :=
  match body with
  | Return a => Return a
  | Raise e => if existsb (issubclass e) classes then Return handler else Raise e
  end.

End Py.
Import Py.

Notation "'let*' x ':=' e 'in' k" := (Py.bind e (fun x => k))
  (at level 10, x name, e at level 100, k at level 200).

#[global] Instance byte_eq_decision : EqDecision byte := Byte.byte_eq_dec.

(** ** The interpreter's base64 codec

    [base64.b64encode] and [base64.b64decode] belong to the Python standard
    library, not to the repository.  They are modelled after RFC 4648 and the
    scanning loop of [binascii.a2b_base64] in its default (non-strict) mode:
    characters outside the alphabet are skipped, decoding stops at a
    complete padding, and an incomplete final quantum raises
    [binascii.Error]. *)

Module Base64.

Local Open Scope N_scope.

Definition alphabet : list byte :=
  list_byte_of_string
    "ABCDEFGHIJKLMNOPQRSTUVWXYZabcdefghijklmnopqrstuvwxyz0123456789+/".

Definition BASE64_PAD : byte := "="%byte.

(** An [unsigned char] from a number: the low eight bits. *)
Definition byte_of_N (n : N) : byte := default "000"%byte (Byte.of_N (n mod 256)).

Definition table_b2a_base64 (n : N) : byte :=
  List.nth (N.to_nat n) alphabet "000"%byte.

Fixpoint index_from (i : N) (ch : byte) (l : list byte) : option N :=
  match l with
  | [] => None
  | x :: l' => if Byte.eqb x ch then Some i else index_from (i + 1) ch l'
  end.

(** The value of an alphabet character, [None] for any other byte. *)
Definition table_a2b_base64 (ch : byte) : option N := index_from 0 ch alphabet.

(** The four 6-bit groups of three input bytes. *)
Definition sextet0 (a : N) : N := N.shiftr a 2.
Definition sextet1 (a b : N) : N := N.lor (N.shiftl (N.land a 3) 4) (N.shiftr b 4).
Definition sextet2 (b c : N) : N := N.lor (N.shiftl (N.land b 15) 2) (N.shiftr c 6).
Definition sextet3 (c : N) : N := N.land c 63.

(** [binascii.b2a_base64(bin, newline=False)]: three bytes give four
    characters; a final group of one or two bytes is completed with zero bits
    and padded with [=]. *)
Fixpoint b2a_base64 (bin : list byte) : list byte :=
  match bin with
  | [] => []
  | [x] =>
      let a := Byte.to_N x in
      [table_b2a_base64 (sextet0 a); table_b2a_base64 (sextet1 a 0);
       BASE64_PAD; BASE64_PAD]
  | [x; y] =>
      let a := Byte.to_N x in
      let b := Byte.to_N y in
      [table_b2a_base64 (sextet0 a); table_b2a_base64 (sextet1 a b);
       table_b2a_base64 (sextet2 b 0); BASE64_PAD]
  | x :: y :: z :: rest =>
      let a := Byte.to_N x in
      let b := Byte.to_N y in
      let c := Byte.to_N z in
      table_b2a_base64 (sextet0 a) :: table_b2a_base64 (sextet1 a b) ::
      table_b2a_base64 (sextet2 b c) :: table_b2a_base64 (sextet3 c) ::
      b2a_base64 rest
  end.

(** Writing one byte in front of what the rest of the loop produces. *)
Definition emit (b : byte) (r : result (list byte)) : result (list byte) :=
  let* out := r in Return (b :: out).

(** The loop of [binascii.a2b_base64]: [quad_pos] is the position in the
    current group of four characters, [leftchar] the bits not yet written,
    [pads] the number of [=] seen since the last alphabet character. *)
Fixpoint a2b_loop (ascii_data : list byte) (quad_pos : nat) (leftchar : N) (pads : N)
  : result (list byte) :=
  match ascii_data with
  | [] =>
      match quad_pos with
      | O => Return []
      | _ => Raise BinasciiError
      end
  | this_ch :: rest =>
      if Byte.eqb this_ch BASE64_PAD then
        if (2 <=? quad_pos)%nat then
          if 4 <=? N.of_nat quad_pos + (pads + 1) then Return []
          else a2b_loop rest quad_pos leftchar (pads + 1)
        else a2b_loop rest quad_pos leftchar pads
      else
        match table_a2b_base64 this_ch with
        | None => a2b_loop rest quad_pos leftchar pads
        | Some v =>
            match quad_pos with
            | 0%nat => a2b_loop rest 1 v 0
            | 1%nat =>
                emit (byte_of_N (N.lor (N.shiftl leftchar 2) (N.shiftr v 4)))
                     (a2b_loop rest 2 (N.land v 15) 0)
            | 2%nat =>
                emit (byte_of_N (N.lor (N.shiftl leftchar 4) (N.shiftr v 2)))
                     (a2b_loop rest 3 (N.land v 3) 0)
            | _ =>
                emit (byte_of_N (N.lor (N.shiftl leftchar 6) v))
                     (a2b_loop rest 0 0 0)
            end
        end
  end.

Definition a2b_base64 (ascii_data : list byte) : result (list byte) :=
  a2b_loop ascii_data 0 0 0.

Definition is_ascii (b : byte) : bool := Byte.to_N b <? 128.

(** [bytes.decode('ascii')]. *)
Definition decode_ascii (bs : list byte) : result string :=
  if forallb is_ascii bs then Return (string_of_list_byte bs)
  else Raise UnicodeDecodeError.

(** [base64.b64encode(s)]. *)
Definition b64encode (s : list byte) : list byte := b2a_base64 s.

(** [base64.b64decode(s)] on a [str]: the text must be ASCII, then
    [binascii.a2b_base64]. *)
Definition b64decode (s : string) : result (list byte) :=
  let bs := list_byte_of_string s in
  if forallb is_ascii bs then a2b_base64 bs else Raise ValueError.

(** A character of an encoding is ASCII and is not the separator that
    [hash_password] puts between the salt and the key. *)
Definition plain (ch : byte) : Prop :=
  is_ascii ch = true /\ Byte.eqb ch "$"%byte = false.

(** The numbers below a bound, to check a property of bytes or of 6-bit
    groups on each of them. *)
Definition below (k : nat) : list N := map N.of_nat (seq 0 k).

(** The alphabet table and its inverse agree, and no character of the
    alphabet is the padding, the separator or a byte above 127. *)
Definition alphabet_ok (n : N) : bool :=
  match table_a2b_base64 (table_b2a_base64 n) with
  | Some m => m =? n
  | None => false
  end
  && negb (Byte.eqb (table_b2a_base64 n) BASE64_PAD)
  && negb (Byte.eqb (table_b2a_base64 n) "$"%byte)
  && is_ascii (table_b2a_base64 n).

(** The 6-bit groups are below 64, and the shifts of the decoding loop put
    the bits of each byte back together. *)
Definition sextets_ok (a b : N) : bool :=
  (sextet0 a <? 64) && (sextet1 a b <? 64) && (sextet2 a b <? 64) && (sextet3 a <? 64)
  && (N.lor (N.shiftl (sextet0 a) 2) (N.shiftr (sextet1 a b) 4) =? a)
  && (N.land (sextet1 a b) 15 =? N.shiftr b 4)
  && (N.lor (N.shiftl (N.shiftr a 4) 4) (N.shiftr (sextet2 a b) 2) =? a)
  && (N.land (sextet2 a b) 3 =? N.shiftr b 6)
  && (N.lor (N.shiftl (N.shiftr a 6) 6) (sextet3 a) =? a).

End Base64.

(** ** utils/security.py *)

Module Security.

(** [str.split(sep)] for a one-character separator. *)
Fixpoint split (sep : ascii) (s : string) : list string :=
  match s with
  | EmptyString => [EmptyString]
  | String c rest =>
      match split sep rest with
      | [] => [EmptyString]
      | p :: ps =>
          if Ascii.eqb c sep then EmptyString :: p :: ps
          else String c p :: ps
      end
  end.

(** Whether the text holds a surrogate: in the bytes of a text the byte
    [0xED] only starts a three-byte character, which is a surrogate exactly
    when its second byte is [0xA0] or more. *)
Fixpoint has_surrogate (bs : list byte) : bool :=
  match bs with
  | [] => false
  | b1 :: rest =>
      match rest with
      | b2 :: _ =>
          (Byte.eqb b1 xed && (160 <=? Byte.to_N b2)%N && (Byte.to_N b2 <=? 191)%N)
          || has_surrogate rest
      | [] => false
      end
  end.

(** [str.encode('utf-8')]: the bytes of the text; a text that holds a
    surrogate cannot be encoded. *)
Definition encode_utf8 (s : string) : result (list byte) :=
  let bs := list_byte_of_string s in
  if has_surrogate bs then Raise UnicodeEncodeError else Return bs.

Section WithKdf.

(** [hashlib.pbkdf2_hmac(hash_name, password, salt, iterations)]: the key
    derivation function of the standard library, kept abstract. *)
Variable pbkdf2_hmac : string -> list byte -> list byte -> N -> list byte.

(** [hash_password(password)], where [salt] is the value of [os.urandom(32)].
    Nothing catches what [password.encode('utf-8')] raises. *)
Definition hash_password (password : string) (salt : list byte) : result string :=
  let* pwd := encode_utf8 password in
  let pwd_hash := pbkdf2_hmac "sha256" pwd salt 100000 in
  let* salt_b64 := Base64.decode_ascii (Base64.b64encode salt) in
  let* hash_b64 := Base64.decode_ascii (Base64.b64encode pwd_hash) in
  Return (salt_b64 +:+ "$" +:+ hash_b64).

(** The body of the [try] block of [verify_password]; the candidate is
    encoded inside it, after the two parts are decoded. *)
Definition verify_password_body (plain_password hashed_password : string) : result bool :=
  match split "$" hashed_password with
  | [salt_b64; hash_b64] =>
      let* salt := Base64.b64decode salt_b64 in
      let* stored_hash := Base64.b64decode hash_b64 in
      let* pwd := encode_utf8 plain_password in
      let pwd_hash := pbkdf2_hmac "sha256" pwd salt 100000 in
      Return (bool_decide (pwd_hash = stored_hash))
  | _ => Raise ValueError
  end.

(** [verify_password(plain_password, hashed_password)]. *)
Definition verify_password (plain_password hashed_password : string) : result bool :=
  try_except (verify_password_body plain_password hashed_password)
             [ValueError; IndexError] false.

End WithKdf.

(** What makes a stored value malformed: it does not split into two parts at
    the separator, or one of its parts does not decode. *)
Definition malformed (stored : string) : Prop :=
  length (split "$" stored) ≠ 2%nat \/
  exists part e, part ∈ split "$" stored /\ Base64.b64decode part = Raise e.

(** A stand-in for the key derivation function, to run the definitions on
    examples: the password followed by the salt. *)
Definition toy_kdf (_ : string) (password salt : list byte) (_ : N) : list byte :=
  password ++ salt.

(** A text of one character that UTF-8 does not encode: the surrogate
    U+D800, which a JSON body writes with the escape for that code. *)
Definition lone_surrogate : string := string_of_list_byte [xed; xa0; x80].

End Security.

(** ** Session tokens

    [jwt.encode] and [jwt.decode] belong to the PyJWT library.  A token is kept
    symbolic: the header and the payload of its compact serialisation, and the
    signature over both.  A string that is not such a serialisation is
    [Malformed]. *)

Module Jwt.

(** The values the payload handed to [jwt.encode] holds. *)
Inductive pyvalue : Type :=
  | PyStr (s : string)
  | PyInt (n : Z)
  | PyDatetime (t : Z).

(** The values of a JSON payload that the application writes: strings and
    integers. *)
Inductive json : Type :=
  | JStr (s : string)
  | JInt (n : Z).

Record Jws : Type := mkJws {
  header : gmap string string;
  payload : gmap string json;
  signature : list byte
}.

Inductive token : Type :=
  | Compact (t : Jws)
  | Malformed (raw : string).

(** The exceptions of [jwt.decode]; all are subclasses of
    [jwt.InvalidTokenError]. *)
Inductive jwt_exception : Type :=
  | DecodeError
  | InvalidAlgorithmError
  | InvalidSignatureError
  | InvalidSubjectError
  | InvalidIssuedAtError
  | ImmatureSignatureError
  | ExpiredSignatureError.

Inductive decoded (A : Type) : Type :=
  | Decoded (a : A)
  | Invalid (e : jwt_exception).

Arguments Decoded {A} a.
Arguments Invalid {A} e.

Definition MICROSECONDS : Z := 1000000.

(** [force_bytes(key)] of the library, for the key of the signature.  The
    key is the configured secret: a setting read when the application starts,
    not a value of a request.  It is taken to be text that UTF-8 encodes, so
    the key is the list of its bytes. *)
Definition force_bytes (key : string) : list byte := list_byte_of_string key.

(** [timedelta(days=d)]. *)
Definition timedelta_days (d : Z) : Z := d * 24 * 60 * 60 * MICROSECONDS.

(** [calendar.timegm(t.utctimetuple())]: whole seconds since the epoch. *)
Definition timegm (t : Z) : Z := t `div` MICROSECONDS.

(** [json.dumps] has no encoding for a [datetime]. *)
Definition to_json (v : pyvalue) : option json :=
  match v with
  | PyStr s => Some (JStr s)
  | PyInt n => Some (JInt n)
  | PyDatetime _ => None
  end.

Definition convert_time_claim (payload : gmap string pyvalue) (time_claim : string)
  : gmap string pyvalue :=
  match payload !! time_claim with
  | Some (PyDatetime t) => <[time_claim := PyInt (timegm t)]> payload
  | _ => payload
  end.

Section WithSigner.

(** [sign algorithm key message]: the signature algorithm registered under a
    name ("HS256" is HMAC with SHA-256), kept abstract. *)
Variable sign : string -> list byte -> list byte -> list byte.

(** The bytes that are signed: the serialised header and payload. *)
Variable signing_input : gmap string string -> gmap string json -> list byte.

(** [jwt.encode(payload, key, algorithm=algorithm)]. *)
Definition encode (payload : gmap string pyvalue) (key : string) (algorithm : string)
  : result token :=
  let payload := fold_left convert_time_claim ["exp"; "iat"; "nbf"] payload in
  if bool_decide (map_Forall (fun _ v => is_Some (to_json v)) payload) then
    let json_payload := omap to_json payload in
    let header : gmap string string := <["alg" := algorithm]> {["typ" := "JWT"]} in
    Return (Compact {| header := header;
                       payload := json_payload;
                       signature := sign algorithm (force_bytes key)
                                         (signing_input header json_payload) |})
  else Raise TypeError.

(** The issued-at check on the claim of an issued token, an integer: a
    token issued in the future is refused.  (The library converts the claim
    with [int]; a claim that is a string is refused here, which the library
    does only when [int] fails on it.) *)
Definition validate_iat (payload : gmap string json) (now : Z) : decoded unit :=
  match payload !! "iat" with
  | None => Decoded tt
  | Some (JInt iat) =>
      if decide (now < iat * MICROSECONDS) then Invalid ImmatureSignatureError
      else Decoded tt
  | Some (JStr _) => Invalid InvalidIssuedAtError
  end.

(** The expiry check on the claim of an issued token, an integer:
    [exp <= now] is expired.  (A claim that is a string is refused here, as for
    [iat].) *)
Definition validate_exp (payload : gmap string json) (now : Z) : decoded unit :=
  match payload !! "exp" with
  | None => Decoded tt
  | Some (JInt exp) =>
      if decide (exp * MICROSECONDS <= now) then Invalid ExpiredSignatureError
      else Decoded tt
  | Some (JStr _) => Invalid DecodeError
  end.

(** The subject check: a [sub] claim must be a string. *)
Definition validate_sub (payload : gmap string json) : decoded unit :=
  match payload !! "sub" with
  | Some (JInt _) => Invalid InvalidSubjectError
  | _ => Decoded tt
  end.

(** The checks on the claims that [create_jwt_token] writes, in the order
    the library makes them.  (The library also checks [nbf], [aud] and [jti],
    which an issued token does not hold.) *)
Definition validate_claims (payload : gmap string json) (now : Z) : decoded unit :=
  match validate_iat payload now with
  | Invalid e => Invalid e
  | Decoded _ =>
      match validate_exp payload now with
      | Invalid e => Invalid e
      | Decoded _ => validate_sub payload
      end
  end.

(** [jwt.decode(token, key, algorithms=algorithms)] at the time [now]. *)
Definition decode (tok : token) (key : string) (algorithms : list string) (now : Z)
  : decoded (gmap string json) :=
  match tok with
  | Malformed _ => Invalid DecodeError
  | Compact t =>
      match header t !! "alg" with
      | None => Invalid InvalidAlgorithmError
      | Some alg =>
          if bool_decide (alg ∈ algorithms) then
            if bool_decide (sign alg (force_bytes key)
                                 (signing_input (header t) (payload t)) = signature t)
            then
              match validate_claims (payload t) now with
              | Invalid e => Invalid e
              | Decoded _ => Decoded (payload t)
              end
            else Invalid InvalidSignatureError
          else Invalid InvalidAlgorithmError
      end
  end.

End WithSigner.

(** A token with the header and the claim names of an issued token, and
    with integers where it has time claims: the tokens on which the checks
    above are those of the library. *)
Definition shaped_as_issued (t : Jws) : Prop :=
  header t = <["alg" := "HS256"]> {["typ" := "JWT"]} /\
  (forall k v, payload t !! k = Some v -> k ∈ ["sub"; "iat"; "exp"]) /\
  (forall s, payload t !! "iat" ≠ Some (JStr s)) /\
  (forall s, payload t !! "exp" ≠ Some (JStr s)).

End Jwt.

(** ** routes/auth.py and middleware/auth.py *)

Module Auth.

Import Jwt.

Section WithSigner.

Variable sign : string -> list byte -> list byte -> list byte.
Variable signing_input : gmap string string -> gmap string json -> list byte.

(** [settings.BETTER_AUTH_SECRET]. *)
Variable BETTER_AUTH_SECRET : string.

(** [create_jwt_token(user_id)]; [utcnow_iat] and [utcnow_exp] are the two
    successive values of [datetime.utcnow()]. *)
Definition create_jwt_token (user_id : string) (utcnow_iat utcnow_exp : Z) : result token :=
  let payload : gmap string pyvalue :=
    <["exp" := PyDatetime (utcnow_exp + timedelta_days 7)]>
      (<["iat" := PyDatetime utcnow_iat]>
         {["sub" := PyStr user_id]}) in
  encode sign signing_input payload BETTER_AUTH_SECRET "HS256".

(** What [HTTPBearer(auto_error=False)] found in the [Authorization] header,
    and the cookies of the request. *)
Record Request : Type := mkRequest {
  credentials : option token;
  cookies : gmap string token
}.

Definition unauthorized {A} (detail : string) : dependency A :=
  Aborts HTTP_401_UNAUTHORIZED detail.

(** The [try] block of [get_current_user_id]: decode, read the [sub] claim.
    The library has refused a [sub] that is not a string, so the third case
    of the inner match never runs. *)
Definition decode_user_id (tok : token) (now : Z) : dependency string :=
  match decode sign signing_input tok BETTER_AUTH_SECRET ["HS256"] now with
  | Decoded payload =>
      match payload !! "sub" with
      | None => unauthorized "Invalid authentication credentials"
      | Some (JStr user_id) => Provides user_id
      | Some (JInt _) => unauthorized "Invalid token"
      end
  | Invalid ExpiredSignatureError => unauthorized "Token has expired"
  | Invalid _ => unauthorized "Invalid token"
  end.

(** [get_current_user_id(request, credentials)]: the header first, then the
    session cookie. *)
Definition get_current_user_id (request : Request) (now : Z) : dependency string :=
  let tok :=
    match credentials request with
    | Some c => Some c
    | None => cookies request !! "better-auth.session_token"
    end in
  match tok with
  | None | Some (Malformed "") => unauthorized "No authentication credentials provided"
  | Some tok => decode_user_id tok now
  end.

End WithSigner.

End Auth.

(** ** The tasks one user can see *)

Module Tenancy.

(** The rows of the [tasks] table that belong to a user. *)
Definition owned_by (uid : string) (session : gmap Z Task) : gmap Z Task :=
  filter (fun kv => user_id kv.2 = uid) session.

(** The [id] column is the primary key of the table. *)
Definition keyed_by_id (session : gmap Z Task) : Prop :=
  forall k t, session !! k = Some t -> id t = k.

End Tenancy.

(** ** The interpreter's [len] on a [str] *)

Module PyStr.

(** In UTF-8 a byte of the form [10xxxxxx] continues a character; any other
    byte starts one. *)
Definition is_continuation (b : byte) : bool :=
  (N.land (Byte.to_N b) 192 =? 128)%N.

(** [len(s)]: the number of characters of the text. *)
Definition len (s : string) : nat :=
  length (List.filter (fun b => negb (is_continuation b)) (list_byte_of_string s)).

End PyStr.

(** ** models/user.py *)

Module UserModels.

(** [class User(UserBase, table=True)]: one row of the [users] table. *)
Record User : Type := mkUser {
  id : string;
  email : string;
  name : option string;
  hashed_password : string;
  created_at : Z;
  updated_at : Z
}.

(** [class UserCreate(SQLModel)]. *)
Record UserCreate : Type := mkUserCreate {
  uc_email : string;
  uc_password : string;
  uc_name : option string
}.

(** [class UserLogin(SQLModel)]. *)
Record UserLogin : Type := mkUserLogin {
  ul_email : string;
  ul_password : string
}.

(** [class UserRead(UserBase)]: no password field. *)
Record UserRead : Type := mkUserRead {
  ur_id : string;
  ur_email : string;
  ur_name : option string;
  ur_created_at : Z;
  ur_updated_at : Z
}.

(** [class UserResponse(SQLModel)]. *)
Record UserResponse : Type := mkUserResponse {
  token : Jwt.token;
  user : UserRead
}.

End UserModels.

(** ** The users table *)

Module UserStore.

Import UserModels.

(** [session.get(User, user_id)]. *)
Definition get (rows : gmap string User) (user_id : string) : option User :=
  rows !! user_id.

(** [select(User).where(User.email == email)]. *)
Definition select_by_email (rows : gmap string User) (e : string) : list User :=
  List.filter (fun u => bool_decide (email u = e)) (map_to_list rows).*2.

(** [.first()]. *)
Definition first {A} (l : list A) : option A := head l.

(** [session.add(db_user); session.commit()]: the insertion is refused when
    the primary key is in use or when a row holds the same email
    ([Field(unique=True)]). *)
Definition add_commit (u : User) (rows : gmap string User) : option (gmap string User) :=
  match rows !! id u, select_by_email rows (email u) with
  | None, [] => Some (<[id u := u]> rows)
  | _, _ => None
  end.

(** The two constraints of the table: the [id] column is the key, and no two
    rows hold the same email. *)
Definition consistent (rows : gmap string User) : Prop :=
  (forall k u, rows !! k = Some u -> id u = k) /\
  (forall k1 k2 u1 u2,
      rows !! k1 = Some u1 -> rows !! k2 = Some u2 -> email u1 = email u2 -> k1 = k2).

End UserStore.

(** ** routes/auth.py: the endpoints *)

Module AuthRoutes.

Import Jwt Auth UserModels.

Definition HTTP_400_BAD_REQUEST : Z := 400.

(** The calls an endpoint makes on its [Response] object. *)
Inductive cookie_call : Type :=
  | set_cookie (key : string) (value : Jwt.token) (httponly secure : bool)
               (samesite : string) (max_age : Z)
  | delete_cookie (key : string) (httponly secure : bool) (samesite : string).

(** What an authentication endpoint does: it returns a body, sent with the
    route's status code and the cookies set on the response; it raises
    [HTTPException]; an exception of the interpreter escapes; or the commit
    raises an [IntegrityError]. *)
Inductive Reply (A : Type) : Type :=
  | Sent (status_code : Z) (body : A) (calls : list cookie_call)
  | Rejected (status_code : Z) (detail : string)
  | Escaped (e : exception)
  | CommitFailed.

Arguments Sent {A} status_code body calls.
Arguments Rejected {A} status_code detail.
Arguments Escaped {A} e.
Arguments CommitFailed {A}.

(** The [UserRead(id=..., email=..., name=..., created_at=..., updated_at=...)]
    that three endpoints build from a row. *)
Definition read (u : User) : UserRead :=
  {| ur_id := id u; ur_email := email u; ur_name := name u;
     ur_created_at := created_at u; ur_updated_at := updated_at u |}.

(** The session cookie that [signup] and [signin] set. *)
Definition session_cookie (tok : Jwt.token) : cookie_call :=
  set_cookie "better-auth.session_token" tok true true "none" (7 * 24 * 60 * 60).

Section WithLibraries.

Variable pbkdf2_hmac : string -> list byte -> list byte -> N -> list byte.
Variable sign : string -> list byte -> list byte -> list byte.
Variable signing_input : gmap string string -> gmap string json -> list byte.
Variable BETTER_AUTH_SECRET : string.

(** [POST /api/auth/signup].  [urandom] is the salt drawn by [hash_password],
    [uuid4] the text of [uuid.uuid4()], and the four clock readings are those
    of the row ([created_at], [updated_at]) and of the token ([iat], [exp]). *)
Definition signup (user_data : UserCreate) (urandom : list byte) (uuid4 : string)
    (utcnow_created utcnow_updated utcnow_iat utcnow_exp : Z)
    (session : gmap string User) : Reply UserResponse * gmap string User :=
  match UserStore.first (UserStore.select_by_email session (uc_email user_data)) with
  | Some _ => (Rejected HTTP_400_BAD_REQUEST "Email already registered", session)
  | None =>
      if (PyStr.len (uc_password user_data) <? 6)%nat then
        (Rejected HTTP_400_BAD_REQUEST "Password must be at least 6 characters long",
         session)
      else
        match Security.hash_password pbkdf2_hmac (uc_password user_data) urandom with
        | Raise e => (Escaped e, session)
        | Return hashed =>
            let db_user :=
              {| id := uuid4;
                 email := uc_email user_data;
                 name := uc_name user_data;
                 hashed_password := hashed;
                 created_at := utcnow_created;
                 updated_at := utcnow_updated |} in
            match UserStore.add_commit db_user session with
            | None => (CommitFailed, session)
            | Some session' =>
                match create_jwt_token sign signing_input BETTER_AUTH_SECRET
                        (id db_user) utcnow_iat utcnow_exp with
                | Raise e => (Escaped e, session')
                | Return tok =>
                    (Sent HTTP_201_CREATED {| token := tok; user := read db_user |}
                          [session_cookie tok],
                     session')
                end
            end
        end
  end.

(** [POST /api/auth/signin]. *)
Definition signin (credentials : UserLogin) (utcnow_iat utcnow_exp : Z)
    (session : gmap string User) : Reply UserResponse :=
  let invalid := Rejected HTTP_401_UNAUTHORIZED "Invalid email or password" in
  match UserStore.first (UserStore.select_by_email session (ul_email credentials)) with
  | None => invalid
  | Some user =>
      match Security.verify_password pbkdf2_hmac (ul_password credentials)
              (hashed_password user) with
      | Raise e => Escaped e
      | Return false => invalid
      | Return true =>
          match create_jwt_token sign signing_input BETTER_AUTH_SECRET
                  (id user) utcnow_iat utcnow_exp with
          | Raise e => Escaped e
          | Return tok =>
              Sent HTTP_200_OK {| token := tok; user := read user |} [session_cookie tok]
          end
      end
  end.

(** [POST /api/auth/signout]. *)
Definition signout : Reply string :=
  Sent HTTP_200_OK "Successfully signed out"
       [delete_cookie "better-auth.session_token" true true "none"].

(** [GET /api/auth/me], once [Depends(get_current_user_id)] has provided
    [user_id]. *)
Definition get_current_user (user_id : string) (session : gmap string User)
  : Reply UserRead :=
  match UserStore.get session user_id with
  | None => Rejected HTTP_404_NOT_FOUND "User not found"
  | Some user => Sent HTTP_200_OK (read user) []
  end.

(** [GET /api/auth/me] from the request: the dependency runs first, and the
    endpoint only when it provides a user. *)
Definition me (request : Request) (now : Z) (session : gmap string User)
  : Reply UserRead :=
  match get_current_user_id sign signing_input BETTER_AUTH_SECRET request now with
  | Aborts status_code detail => Rejected status_code detail
  | Provides user_id => get_current_user user_id session
  end.

End WithLibraries.

End AuthRoutes.

(** * Properties *)

(** ** The tasks table *)

Module StoreFacts.

Import Store.

Lemma max_id_bounds (rows : gmap Z Task) :
  0 <= max_id rows /\ forall k t, rows !! k = Some t -> k <= max_id rows.
Proof.
  unfold max_id.
  apply (map_fold_weak_ind
           (fun acc (m : gmap Z Task) =>
              0 <= acc /\ forall k t, m !! k = Some t -> k <= acc)).
  - split; [lia|]. intros k t Hk. rewrite lookup_empty in Hk. discriminate.
  - intros i x m r Hi [Hr IH]. split; [lia|].
    intros k t Hk. destruct (decide (i = k)) as [->|Hne].
    + lia.
    + rewrite lookup_insert_ne in Hk by done. specialize (IH k t Hk). lia.
Qed.

(** The key of the next row is not in use. *)
Lemma next_id_fresh (rows : gmap Z Task) : rows !! next_id rows = None.
Proof.
  destruct (rows !! next_id rows) as [t|] eqn:E; [|done].
  apply (proj2 (max_id_bounds rows)) in E. unfold next_id in E. lia.
Qed.

Lemma next_id_empty : next_id ∅ = 1.
Proof. unfold next_id, max_id. rewrite map_fold_empty. reflexivity. Qed.

End StoreFacts.

(** ** The task endpoints *)

Module RoutesFacts.

Import Routes.

(** Every endpoint opens with the same comparison of the path user with the
    user of the token. *)
Ltac path_check :=
  match goal with
  | |- context [decide (?a ≠ ?b)] =>
      destruct (decide (a ≠ b)); try congruence; try contradiction
  end.

(** The attributes no assignment of an update touches. *)
Lemma setattr_frame (l : list assignment) (o : TaskObject) :
  o_id (fold_left setattr l o) = o_id o /\
  o_user_id (fold_left setattr l o) = o_user_id o /\
  o_created_at (fold_left setattr l o) = o_created_at o.
Proof.
  revert o. induction l as [|a l IH]; intros o; simpl; [done|].
  destruct (IH (setattr o a)) as (H1 & H2 & H3).
  rewrite H1, H2, H3. by destruct a.
Qed.


(** C1: creation with the empty title.  The endpoint answers 201 and
    the table holds a new row with the empty title: nothing in [TaskCreate]
    or in [create_task] refuses it. *)
Theorem create_task_empty_title_persisted :
  let task := TaskCreate_validate
                {| cb_title := ""; cb_description := Some "No title";
                   cb_completed := None |} in
  let row := {| id := 1; user_id := "u1"; title := "";
                description := Some "No title"; completed := false;
                created_at := 10; updated_at := 11 |} in
  create_task "u1" task "u1" 10 11 ∅ = (Returns HTTP_201_CREATED row, {[ 1 := row ]}).
Proof.
  intros task row. unfold create_task. path_check.
  rewrite StoreFacts.next_id_empty. reflexivity.
Qed.

(** C2: a task that exists but belongs to another user is answered with
    404 "not found": not 403, not 200, and without the task. *)
Theorem get_task_other_owner_not_found
    (U : string) (task_id : Z) (session : gmap Z Task) (task : Task) :
  session !! task_id = Some task ->
  user_id task ≠ U ->
  let r := get_task U task_id U session in
  r = (HTTPException HTTP_404_NOT_FOUND "Task not found", session) /\
  status_of r.1 ≠ HTTP_403_FORBIDDEN /\
  status_of r.1 ≠ HTTP_200_OK /\
  body_of r.1 = None.
Proof.
  intros Hget Hown r. subst r. unfold get_task, Store.get. path_check.
  rewrite Hget. path_check. simpl. repeat split; try reflexivity; discriminate.
Qed.

Lemma get_task_other_owner_not_found_witness :
  let t := {| id := 7; user_id := "bob"; title := "t"; description := None;
              completed := false; created_at := 1; updated_at := 1 |} in
  get_task "alice" 7 "alice" {[ 7 := t ]}
    = (HTTPException HTTP_404_NOT_FOUND "Task not found", {[ 7 := t ]}).
Proof.
  intros t.
  refine (proj1 (get_task_other_owner_not_found "alice" 7 {[ 7 := t ]} t _ _)).
  - apply lookup_singleton_eq.
  - discriminate.
Defined.

(** A request whose path user is not the user of the token is refused by
    each of the six endpoints before anything else happens. *)
Lemma mismatch_forbidden (A B : string) (task_id : Z) (task : TaskCreate)
    (task_update : TaskUpdate) (t1 t2 : Z) (session : gmap Z Task) :
  B ≠ A ->
  list_tasks B A session = (forbidden "Unauthorized access to user's tasks", session) /\
  create_task B task A t1 t2 session = (forbidden "Unauthorized access", session) /\
  get_task B task_id A session = (forbidden "Unauthorized access", session) /\
  update_task B task_id task_update A t1 session = (forbidden "Unauthorized access", session) /\
  delete_task B task_id A session = (forbidden "Unauthorized access", session) /\
  toggle_complete B task_id A t1 session = (forbidden "Unauthorized access", session).
Proof.
  intros Hne.
  unfold list_tasks, create_task, get_task, update_task, delete_task, toggle_complete.
  repeat split; path_check.
Qed.

Lemma select_by_user_owner (session : gmap Z Task) (A : string) :
  Forall (fun t => user_id t = A) (Store.select_by_user session A).
Proof.
  apply Forall_forall. intros t Ht. unfold Store.select_by_user in Ht.
  apply list_elem_of_In, filter_In in Ht. destruct Ht as [_ Ht].
  by apply bool_decide_eq_true in Ht.
Qed.

Lemma flush_owner (l : list assignment) (t row : Task) (now : Z) :
  flush (set_updated_at (fold_left setattr l (load t)) now) = Some row ->
  id row = id t /\ user_id row = user_id t /\ created_at row = created_at t /\
  updated_at row = now.
Proof.
  destruct (setattr_frame l (load t)) as (H1 & H2 & H3).
  revert H1 H2 H3. generalize (fold_left setattr l (load t)). intros o H1 H2 H3.
  unfold flush. simpl.
  destruct (o_title o), (o_completed o); intros [= <-]; simpl.
  rewrite H1, H2, H3. done.
Qed.

(** C3: with a valid token for A and the path user B, every task
    endpoint raises 403 when A and B differ; when they are the same string
    no endpoint raises 403 and the operation runs for A: the list holds the
    tasks of A, the created task belongs to A, and a task that is returned
    (read, updated, toggled) or deleted belongs to A. *)
Theorem path_user_must_match_token (A B : string) (task_id : Z) (task : TaskCreate)
    (task_update : TaskUpdate) (t1 t2 : Z) (session : gmap Z Task) :
  (A ≠ B ->
     list_tasks B A session
       = (HTTPException HTTP_403_FORBIDDEN "Unauthorized access to user's tasks", session) /\
     create_task B task A t1 t2 session
       = (HTTPException HTTP_403_FORBIDDEN "Unauthorized access", session) /\
     get_task B task_id A session
       = (HTTPException HTTP_403_FORBIDDEN "Unauthorized access", session) /\
     update_task B task_id task_update A t1 session
       = (HTTPException HTTP_403_FORBIDDEN "Unauthorized access", session) /\
     delete_task B task_id A session
       = (HTTPException HTTP_403_FORBIDDEN "Unauthorized access", session) /\
     toggle_complete B task_id A t1 session
       = (HTTPException HTTP_403_FORBIDDEN "Unauthorized access", session)) /\
  (A = B ->
     (list_tasks B A session = (Returns HTTP_200_OK (Store.select_by_user session A), session) /\
      Forall (fun t => user_id t = A) (Store.select_by_user session A)) /\
     (exists row, create_task B task A t1 t2 session
                    = (Returns HTTP_201_CREATED row, <[id row := row]> session) /\
                  user_id row = A) /\
     (status_of (get_task B task_id A session).1 ≠ HTTP_403_FORBIDDEN /\
      forall row, body_of (get_task B task_id A session).1 = Some row -> user_id row = A) /\
     (status_of (update_task B task_id task_update A t1 session).1 ≠ HTTP_403_FORBIDDEN /\
      forall row, body_of (update_task B task_id task_update A t1 session).1 = Some row ->
                  user_id row = A) /\
     (status_of (delete_task B task_id A session).1 ≠ HTTP_403_FORBIDDEN /\
      (body_of (delete_task B task_id A session).1 = Some tt ->
       exists row, session !! task_id = Some row /\ user_id row = A)) /\
     (status_of (toggle_complete B task_id A t1 session).1 ≠ HTTP_403_FORBIDDEN /\
      forall row, body_of (toggle_complete B task_id A t1 session).1 = Some row ->
                  user_id row = A)).
Proof.
  split.
  - intros Hne. apply mismatch_forbidden. congruence.
  - intros <-. repeat split.
    + unfold list_tasks. path_check.
    + apply select_by_user_owner.
    + unfold create_task. path_check. eexists. split; reflexivity.
    + unfold get_task, Store.get. path_check.
      destruct (session !! task_id) as [t|]; [path_check|]; discriminate.
    + unfold get_task, Store.get. path_check.
      destruct (session !! task_id) as [t|]; [path_check|]; simpl; intros row [= <-].
      by destruct (decide (user_id t = A)).
    + unfold update_task, Store.get. path_check.
      destruct (session !! task_id) as [t|]; [path_check|]; try discriminate.
      destruct (flush _); discriminate.
    + unfold update_task, Store.get. path_check.
      destruct (session !! task_id) as [t|]; [path_check|]; simpl; try (intros row [= <-]).
      destruct (flush _) as [r|] eqn:E; simpl; intros row [= <-].
      apply flush_owner in E. destruct E as (_ & E & _). rewrite E.
      by destruct (decide (user_id t = A)).
    + unfold delete_task, Store.get. path_check.
      destruct (session !! task_id) as [t|]; [path_check|]; discriminate.
    + unfold delete_task, Store.get. path_check.
      destruct (session !! task_id) as [t|]; [path_check|]; simpl; try discriminate.
      intros _. exists t. split; [done|]. by destruct (decide (user_id t = A)).
    + unfold toggle_complete, Store.get. path_check.
      destruct (session !! task_id) as [t|]; [path_check|]; discriminate.
    + unfold toggle_complete, Store.get. path_check.
      destruct (session !! task_id) as [t|]; [path_check|]; simpl; intros row [= <-].
      simpl. by destruct (decide (user_id t = A)).
Qed.

Lemma path_user_must_match_token_witness :
  get_task "bob" 1 "alice" ∅
    = (HTTPException HTTP_403_FORBIDDEN "Unauthorized access", ∅) /\
  list_tasks "alice" "alice" ∅ = (Returns HTTP_200_OK (Store.select_by_user ∅ "alice"), ∅).
Proof.
  pose proof (path_user_must_match_token "alice" "bob" 1
                (mkTaskCreate "t" None false) (mkTaskUpdate None None None) 1 2 ∅) as [H _].
  pose proof (path_user_must_match_token "alice" "alice" 1
                (mkTaskCreate "t" None false) (mkTaskUpdate None None None) 1 2 ∅) as [_ H'].
  split.
  - refine (proj1 (proj2 (proj2 (H _)))). discriminate.
  - exact (proj1 (proj1 (H' eq_refl))).
Defined.

(** C4, as stated, fails: the [completed] flag of a new task is the one of
    the request body, so a body with [completed] true creates a completed
    task. *)
Lemma create_task_completed_not_always_false :
  ~ (forall (uid : string) (body : CreateBody) (t1 t2 : Z) (session : gmap Z Task)
            (row : Task) (session' : gmap Z Task),
        create_task uid (TaskCreate_validate body) uid t1 t2 session
          = (Returns HTTP_201_CREATED row, session') ->
        completed row = false).
Proof.
  intros H.
  pose (body := {| cb_title := "t1"; cb_description := None; cb_completed := Some true |}).
  pose (row := {| id := 1; user_id := "u1"; title := "t1"; description := None;
                  completed := true; created_at := 10; updated_at := 11 |}).
  specialize (H "u1" body 10 11 ∅ row {[ 1 := row ]}).
  assert (completed row = false) as Hc; [|discriminate Hc].
  apply H. unfold create_task. path_check.
  rewrite StoreFacts.next_id_empty. reflexivity.
Qed.

(** C4, amended: a successful creation answers 201 with a new row whose
    owner is the user of the token (which is the path user), whose title,
    description and [completed] flag are those of the validated body
    ([completed] is false when the body leaves it out), whose [created_at]
    and [updated_at] are the two clock readings taken when the row is built,
    and that is stored under a key not in use before. *)
Theorem create_task_initialises_row (user_id current_user_id : string) (body : CreateBody)
    (utcnow_created utcnow_updated : Z) (session : gmap Z Task)
    (status : Z) (row : Task) (session' : gmap Z Task) :
  create_task user_id (TaskCreate_validate body) current_user_id
              utcnow_created utcnow_updated session
    = (Returns status row, session') ->
  status = HTTP_201_CREATED /\
  Models.user_id row = current_user_id /\
  Models.user_id row = user_id /\
  completed row = default false (cb_completed body) /\
  (cb_completed body = None -> completed row = false) /\
  title row = cb_title body /\
  description row = cb_description body /\
  created_at row = utcnow_created /\
  updated_at row = utcnow_updated /\
  session !! id row = None /\
  session' = <[id row := row]> session /\
  session' !! id row = Some row.
Proof.
  unfold create_task.
  destruct (decide (user_id ≠ current_user_id)) as [Hne|Heq]; [discriminate|].
  apply dec_stable in Heq. subst current_user_id.
  intros H. injection H as Hs Hrow Hsess. subst status row session'. simpl.
  split_and!; try reflexivity.
  - intros Hnone. by rewrite Hnone.
  - apply StoreFacts.next_id_fresh.
  - apply lookup_insert_eq.
Qed.

Lemma create_task_initialises_row_witness :
  let body := {| cb_title := "t1"; cb_description := None; cb_completed := None |} in
  let row := {| id := 1; user_id := "u1"; title := "t1"; description := None;
                completed := false; created_at := 10; updated_at := 11 |} in
  create_task "u1" (TaskCreate_validate body) "u1" 10 11 ∅
    = (Returns HTTP_201_CREATED row, {[ 1 := row ]}) /\
  completed row = default false (cb_completed body).
Proof.
  intros body row.
  assert (create_task "u1" (TaskCreate_validate body) "u1" 10 11 ∅
            = (Returns HTTP_201_CREATED row, {[ 1 := row ]})) as E.
  { unfold create_task. path_check. rewrite StoreFacts.next_id_empty. reflexivity. }
  split; [exact E|].
  exact (proj1 (proj2 (proj2 (proj2
           (create_task_initialises_row "u1" "u1" body 10 11 ∅ _ row _ E))))).
Defined.

(** What a toggle does to a task of the caller. *)
Lemma toggle_complete_owned (U : string) (task_id : Z) (session : gmap Z Task)
    (t : Task) (utcnow : Z) :
  session !! task_id = Some t ->
  user_id t = U ->
  let row := {| id := id t; user_id := user_id t; title := title t;
                description := description t; completed := negb (completed t);
                created_at := created_at t; updated_at := utcnow |} in
  toggle_complete U task_id U utcnow session
    = (Returns HTTP_200_OK row, <[task_id := row]> session).
Proof.
  intros Hget Hown row. unfold toggle_complete, Store.get.
  destruct (decide (U ≠ U)) as [Hne|_]; [congruence|].
  rewrite Hget.
  destruct (decide (user_id t ≠ U)) as [Hne|_]; [contradiction|].
  reflexivity.
Qed.

(** C8, as stated, fails: a toggle writes the reading of the clock into
    [updated_at] without looking at the value it replaces, so a reading equal
    to the stored value leaves [updated_at] where it was. *)
Lemma toggle_complete_updated_at_not_strict :
  ~ (forall (U : string) (task_id : Z) (session : gmap Z Task) (t : Task) (utcnow : Z)
            (row : Task) (session' : gmap Z Task),
        session !! task_id = Some t ->
        user_id t = U ->
        toggle_complete U task_id U utcnow session = (Returns HTTP_200_OK row, session') ->
        updated_at t < updated_at row).
Proof.
  intros H.
  pose (t := {| id := 1; user_id := "u1"; title := "t1"; description := None;
                completed := false; created_at := 5; updated_at := 5 |}).
  pose proof (toggle_complete_owned "u1" 1 {[ 1 := t ]} t 5
                (lookup_singleton_eq _ _) eq_refl) as E.
  specialize (H "u1" 1 {[ 1 := t ]} t 5 _ _ (lookup_singleton_eq _ _) eq_refl E).
  simpl in H. lia.
Qed.

(** C8, amended: on a task of the caller a toggle answers 200, flips
    [completed] and sets [updated_at] to the reading of the clock, which is
    later than the former value whenever the clock has moved past it; a second
    toggle gives [completed] its first value back.  Nothing else changes. *)
Theorem toggle_complete_twice (U : string) (task_id : Z) (session : gmap Z Task)
    (t : Task) (utcnow1 utcnow2 : Z) :
  session !! task_id = Some t ->
  user_id t = U ->
  exists (t1 t2 : Task) (session1 session2 : gmap Z Task),
    toggle_complete U task_id U utcnow1 session = (Returns HTTP_200_OK t1, session1) /\
    toggle_complete U task_id U utcnow2 session1 = (Returns HTTP_200_OK t2, session2) /\
    session1 !! task_id = Some t1 /\
    session2 !! task_id = Some t2 /\
    completed t1 = negb (completed t) /\
    completed t2 = negb (completed t1) /\
    completed t2 = completed t /\
    updated_at t1 = utcnow1 /\
    updated_at t2 = utcnow2 /\
    (updated_at t < utcnow1 -> updated_at t < updated_at t1) /\
    (updated_at t1 < utcnow2 -> updated_at t1 < updated_at t2) /\
    (id t2, user_id t2, title t2, description t2, created_at t2)
      = (id t, user_id t, title t, description t, created_at t).
Proof.
  intros Hget Hown.
  pose proof (toggle_complete_owned U task_id session t utcnow1 Hget Hown) as E1.
  simpl in E1.
  eexists _, _, _, _. split; [exact E1|].
  split.
  { apply toggle_complete_owned; [apply lookup_insert_eq | exact Hown]. }
  simpl. rewrite !lookup_insert_eq, negb_involutive.
  split_and!; try reflexivity; intros; assumption.
Qed.

Lemma toggle_complete_twice_witness :
  let t := {| id := 1; user_id := "u1"; title := "t1"; description := None;
              completed := false; created_at := 5; updated_at := 5 |} in
  exists (t1 t2 : Task) (session1 session2 : gmap Z Task),
    toggle_complete "u1" 1 "u1" 6 {[ 1 := t ]} = (Returns HTTP_200_OK t1, session1) /\
    toggle_complete "u1" 1 "u1" 7 session1 = (Returns HTTP_200_OK t2, session2) /\
    completed t2 = completed t.
Proof.
  intros t.
  destruct (toggle_complete_twice "u1" 1 {[ 1 := t ]} t 6 7
              (lookup_singleton_eq _ _) eq_refl)
    as (t1 & t2 & s1 & s2 & E1 & E2 & _ & _ & _ & _ & Hc & _).
  exists t1, t2, s1, s2. auto.
Defined.



(** C10: in the four endpoints that name a task, the comparison of the
    path user with the user of the token comes before the lookup: when they
    differ the answer is 403, never 404, also when the table has no such task;
    with the same table and matching users the answer is 404. *)
Theorem forbidden_before_not_found (A B : string) (task_id : Z)
    (task_update : TaskUpdate) (utcnow : Z) (session : gmap Z Task) :
  A ≠ B ->
  Store.get session task_id = None ->
  (get_task B task_id A session
     = (HTTPException HTTP_403_FORBIDDEN "Unauthorized access", session) /\
   update_task B task_id task_update A utcnow session
     = (HTTPException HTTP_403_FORBIDDEN "Unauthorized access", session) /\
   delete_task B task_id A session
     = (HTTPException HTTP_403_FORBIDDEN "Unauthorized access", session) /\
   toggle_complete B task_id A utcnow session
     = (HTTPException HTTP_403_FORBIDDEN "Unauthorized access", session)) /\
  (status_of (get_task B task_id A session).1 ≠ HTTP_404_NOT_FOUND /\
   status_of (update_task B task_id task_update A utcnow session).1 ≠ HTTP_404_NOT_FOUND /\
   status_of (delete_task B task_id A session).1 ≠ HTTP_404_NOT_FOUND /\
   status_of (toggle_complete B task_id A utcnow session).1 ≠ HTTP_404_NOT_FOUND) /\
  (status_of (get_task B task_id B session).1 = HTTP_404_NOT_FOUND /\
   status_of (update_task B task_id task_update B utcnow session).1 = HTTP_404_NOT_FOUND /\
   status_of (delete_task B task_id B session).1 = HTTP_404_NOT_FOUND /\
   status_of (toggle_complete B task_id B utcnow session).1 = HTTP_404_NOT_FOUND).
Proof.
  intros Hne Hnone.
  assert (B ≠ A) as Hne' by congruence.
  destruct (mismatch_forbidden A B task_id (mkTaskCreate "" None false) task_update
              utcnow utcnow session Hne') as (_ & _ & Hg & Hu & Hd & Ht).
  split; [by split_and! |].
  split.
  - rewrite Hg, Hu, Hd, Ht. split_and!; discriminate.
  - unfold get_task, update_task, delete_task, toggle_complete.
    rewrite Hnone.
    destruct (decide (B ≠ B)) as [?|_]; [congruence|]. by split_and!.
Qed.

Lemma forbidden_before_not_found_witness :
  get_task "bob" 99999 "alice" ∅
    = (HTTPException HTTP_403_FORBIDDEN "Unauthorized access", ∅) /\
  delete_task "bob" 99999 "alice" ∅
    = (HTTPException HTTP_403_FORBIDDEN "Unauthorized access", ∅).
Proof.
  destruct (forbidden_before_not_found "alice" "bob" 99999
              (mkTaskUpdate None None None) 0 ∅) as [(Hg & _ & Hd & _) _].
  - discriminate.
  - apply lookup_empty.
  - exact (conj Hg Hd).
Defined.

End RoutesFacts.

(** ** The base64 codec *)

Module Base64Facts.

Import Base64.

Local Open Scope N_scope.

(** Checking a decidable property on every number below a bound. *)
Lemma forallb_below (P : N -> bool) (k : nat) :
  forallb P (below k) = true -> forall n, n < N.of_nat k -> P n = true.
Proof.
  intros H n Hn. rewrite forallb_forall in H. apply H.
  unfold below. apply in_map_iff. exists (N.to_nat n). split.
  - apply N2Nat.id.
  - apply in_seq. lia.
Qed.

Lemma forallb_below2 (P : N -> N -> bool) (k : nat) :
  forallb (fun a => forallb (P a) (below k)) (below k) = true ->
  forall a b, a < N.of_nat k -> b < N.of_nat k -> P a b = true.
Proof.
  intros H a b Ha Hb.
  apply (forallb_below (P a) k); [|exact Hb].
  exact (forallb_below (fun a => forallb (P a) (below k)) k H a Ha).
Qed.

Lemma to_N_lt (x : byte) : Byte.to_N x < 256.
Proof. pose proof (Byte.to_N_bounded x). lia. Qed.

Lemma byte_of_to_N (x : byte) : byte_of_N (Byte.to_N x) = x.
Proof.
  unfold byte_of_N. rewrite N.mod_small by apply to_N_lt.
  by rewrite Byte.of_to_N.
Qed.

(** *** The alphabet *)

Lemma alphabet_spec (n : N) :
  n < 64 ->
  table_a2b_base64 (table_b2a_base64 n) = Some n /\
  Byte.eqb (table_b2a_base64 n) BASE64_PAD = false /\
  Byte.eqb (table_b2a_base64 n) "$"%byte = false /\
  is_ascii (table_b2a_base64 n) = true.
Proof.
  intros Hn.
  assert (alphabet_ok n = true) as H.
  { apply (forallb_below alphabet_ok 64); [by vm_compute | exact Hn]. }
  unfold alphabet_ok in H.
  apply andb_prop in H as [H H4]. apply andb_prop in H as [H H3].
  apply andb_prop in H as [H1 H2].
  destruct (table_a2b_base64 (table_b2a_base64 n)) as [m|]; [|discriminate].
  apply N.eqb_eq in H1. subst m.
  apply negb_true_iff in H2, H3. done.
Qed.

(** *** The 6-bit groups *)

Lemma sextets_spec (a b : N) :
  a < 256 -> b < 256 ->
  (sextet0 a < 64 /\ sextet1 a b < 64 /\ sextet2 a b < 64 /\ sextet3 a < 64) /\
  N.lor (N.shiftl (sextet0 a) 2) (N.shiftr (sextet1 a b) 4) = a /\
  N.land (sextet1 a b) 15 = N.shiftr b 4 /\
  N.lor (N.shiftl (N.shiftr a 4) 4) (N.shiftr (sextet2 a b) 2) = a /\
  N.land (sextet2 a b) 3 = N.shiftr b 6 /\
  N.lor (N.shiftl (N.shiftr a 6) 6) (sextet3 a) = a.
Proof.
  intros Ha Hb.
  assert (sextets_ok a b = true) as H.
  { apply (forallb_below2 sextets_ok 256); [by vm_compute | exact Ha | exact Hb]. }
  unfold sextets_ok in H.
  repeat match type of H with
         | (_ && _)%bool = true => let H' := fresh "H" in apply andb_prop in H as [H H']
         end.
  repeat match goal with
         | H : (_ <? _) = true |- _ => apply N.ltb_lt in H
         | H : (_ =? _) = true |- _ => apply N.eqb_eq in H
         end.
  done.
Qed.

(** *** Decoding what was encoded *)

(** Induction over a byte string three bytes at a time. *)
Lemma list_ind3 {A} (P : list A -> Prop) :
  P [] -> (forall x, P [x]) -> (forall x y, P [x; y]) ->
  (forall x y z l, P l -> P (x :: y :: z :: l)) ->
  forall l, P l.
Proof.
  intros H0 H1 H2 H3.
  fix IH 1. intros [|x [|y [|z l]]]; [exact H0 | apply H1 | apply H2 |].
  apply H3, IH.
Qed.

(** One turn of the loop on a character of the alphabet. *)
Lemma a2b_loop_char (n : N) (rest : list byte) (quad_pos : nat) (leftchar pads : N) :
  n < 64 ->
  a2b_loop (table_b2a_base64 n :: rest) quad_pos leftchar pads =
  match quad_pos with
  | 0%nat => a2b_loop rest 1 n 0
  | 1%nat => emit (byte_of_N (N.lor (N.shiftl leftchar 2) (N.shiftr n 4)))
                  (a2b_loop rest 2 (N.land n 15) 0)
  | 2%nat => emit (byte_of_N (N.lor (N.shiftl leftchar 4) (N.shiftr n 2)))
                  (a2b_loop rest 3 (N.land n 3) 0)
  | _ => emit (byte_of_N (N.lor (N.shiftl leftchar 6) n)) (a2b_loop rest 0 0 0)
  end.
Proof.
  intros Hn. destruct (alphabet_spec n Hn) as (Ha & Hp & _).
  cbn [a2b_loop]. rewrite Hp, Ha. reflexivity.
Qed.

(** The first two characters of a group give back the first byte. *)
Lemma a2b_loop_first (x : byte) (b : N) (rest : list byte) :
  b < 256 ->
  let a := Byte.to_N x in
  a2b_loop (table_b2a_base64 (sextet0 a) :: table_b2a_base64 (sextet1 a b) :: rest) 0 0 0
  = emit x (a2b_loop rest 2 (N.shiftr b 4) 0).
Proof.
  intros Hb a.
  destruct (sextets_spec a b (to_N_lt x) Hb) as ((H0 & H1 & _) & E0 & E1 & _).
  rewrite !a2b_loop_char by assumption.
  rewrite E0, E1. unfold a. by rewrite byte_of_to_N.
Qed.

(** The third character gives back the second byte. *)
Lemma a2b_loop_second (y : byte) (c : N) (rest : list byte) :
  c < 256 ->
  let b := Byte.to_N y in
  a2b_loop (table_b2a_base64 (sextet2 b c) :: rest) 2 (N.shiftr b 4) 0
  = emit y (a2b_loop rest 3 (N.shiftr c 6) 0).
Proof.
  intros Hc b.
  destruct (sextets_spec b c (to_N_lt y) Hc) as ((_ & _ & H2 & _) & _ & _ & E2 & E3 & _).
  rewrite a2b_loop_char by assumption.
  rewrite E2, E3. unfold b. by rewrite byte_of_to_N.
Qed.

(** The fourth character gives back the third byte. *)
Lemma a2b_loop_third (z : byte) (rest : list byte) :
  let c := Byte.to_N z in
  a2b_loop (table_b2a_base64 (sextet3 c) :: rest) 3 (N.shiftr c 6) 0
  = emit z (a2b_loop rest 0 0 0).
Proof.
  intros c.
  destruct (sextets_spec c c (to_N_lt z) (to_N_lt z)) as ((_ & _ & _ & H3) & _ & _ & _ & _ & E4).
  rewrite a2b_loop_char by assumption.
  rewrite E4. unfold c. by rewrite byte_of_to_N.
Qed.

(** [a2b_base64] undoes [b2a_base64]. *)
Lemma a2b_b2a_base64 (bin : list byte) : a2b_base64 (b2a_base64 bin) = Return bin.
Proof.
  unfold a2b_base64. induction bin as [|x|x y|x y z l IH] using list_ind3.
  - reflexivity.
  - cbn [b2a_base64]. rewrite a2b_loop_first by done. reflexivity.
  - cbn [b2a_base64]. rewrite a2b_loop_first by apply to_N_lt.
    rewrite a2b_loop_second by done. reflexivity.
  - cbn [b2a_base64]. rewrite a2b_loop_first by apply to_N_lt.
    rewrite a2b_loop_second by apply to_N_lt.
    rewrite a2b_loop_third, IH. reflexivity.
Qed.

Lemma plain_table (n : N) : n < 64 -> plain (table_b2a_base64 n).
Proof. intros Hn. destruct (alphabet_spec n Hn) as (_ & _ & H1 & H2). by split. Qed.

Lemma plain_pad : plain BASE64_PAD.
Proof. by split. Qed.

Lemma b2a_base64_plain (bin : list byte) : Forall plain (b2a_base64 bin).
Proof.
  induction bin as [|x|x y|x y z l IH] using list_ind3; cbn [b2a_base64].
  - constructor.
  - destruct (sextets_spec (Byte.to_N x) 0 (to_N_lt x) eq_refl) as ((? & ? & _) & _).
    repeat (constructor; [first [by apply plain_table | apply plain_pad] |]); constructor.
  - destruct (sextets_spec (Byte.to_N x) (Byte.to_N y) (to_N_lt x) (to_N_lt y))
      as ((? & ? & _) & _).
    destruct (sextets_spec (Byte.to_N y) 0 (to_N_lt y) eq_refl) as ((_ & _ & ? & _) & _).
    repeat (constructor; [first [by apply plain_table | apply plain_pad] |]); constructor.
  - destruct (sextets_spec (Byte.to_N x) (Byte.to_N y) (to_N_lt x) (to_N_lt y))
      as ((? & ? & _) & _).
    destruct (sextets_spec (Byte.to_N y) (Byte.to_N z) (to_N_lt y) (to_N_lt z))
      as ((_ & _ & ? & _) & _).
    destruct (sextets_spec (Byte.to_N z) 0 (to_N_lt z) eq_refl) as ((_ & _ & _ & ?) & _).
    repeat (constructor; [by apply plain_table |]). exact IH.
Qed.

Lemma forallb_is_ascii (l : list byte) : Forall plain l -> forallb is_ascii l = true.
Proof.
  intros H. apply forallb_forall. intros ch Hch.
  rewrite Forall_forall in H. apply list_elem_of_In, H in Hch. apply Hch.
Qed.

(** Encoding never fails, and decoding the text of an encoding gives the
    bytes back. *)
Lemma decode_ascii_b64encode (bin : list byte) :
  decode_ascii (b64encode bin) = Return (string_of_list_byte (b64encode bin)).
Proof.
  unfold decode_ascii. by rewrite forallb_is_ascii by apply b2a_base64_plain.
Qed.

Lemma b64decode_b64encode (bin : list byte) :
  b64decode (string_of_list_byte (b64encode bin)) = Return bin.
Proof.
  unfold b64decode. rewrite list_byte_of_string_of_list_byte.
  rewrite forallb_is_ascii by apply b2a_base64_plain.
  apply a2b_b2a_base64.
Qed.

(** [b64decode] raises nothing but [ValueError] and its subclass
    [binascii.Error]. *)
Lemma a2b_loop_raises (s : list byte) (quad_pos : nat) (leftchar pads : N) (e : exception) :
  a2b_loop s quad_pos leftchar pads = Raise e -> e = BinasciiError.
Proof.
  revert quad_pos leftchar pads.
  induction s as [|ch s IH]; intros quad_pos leftchar pads; cbn [a2b_loop].
  - destruct quad_pos; [discriminate | by intros [= <-]].
  - destruct (Byte.eqb ch BASE64_PAD).
    + destruct (2 <=? quad_pos)%nat; [|apply IH].
      destruct (4 <=? _); [discriminate | apply IH].
    + destruct (table_a2b_base64 ch) as [v|]; [|apply IH].
      destruct quad_pos as [|[|[|q]]]; [apply IH | | |];
        unfold emit, bind;
        match goal with
        | |- context [a2b_loop s ?q ?l ?p] =>
            specialize (IH q l p); destruct (a2b_loop s q l p)
        end; try discriminate; intros [= <-]; by apply IH.
Qed.

Lemma b64decode_raises (s : string) (e : exception) :
  b64decode s = Raise e -> issubclass e ValueError = true.
Proof.
  unfold b64decode. destruct (forallb is_ascii _).
  - intros H. apply a2b_loop_raises in H. by subst e.
  - by intros [= <-].
Qed.

End Base64Facts.

(** ** Password hashing *)

Module SecurityFacts.

Import Base64 Base64Facts Security.

Lemma ascii_of_byte_not_dollar (b : byte) :
  Byte.eqb b "$"%byte = false -> Ascii.eqb (ascii_of_byte b) "$" = false.
Proof.
  intros H. destruct (Ascii.eqb_spec (ascii_of_byte b) "$") as [E|]; [|done].
  apply (f_equal byte_of_ascii) in E. rewrite byte_of_ascii_of_byte in E.
  subst b. discriminate.
Qed.

(** A split always has a first part. *)
Lemma split_cons (sep : ascii) (s : string) : exists p ps, split sep s = p :: ps.
Proof.
  induction s as [|c s (p & ps & IH)]; cbn [split]; [by eauto|].
  rewrite IH. destruct (Ascii.eqb c sep); eauto.
Qed.

(** Splitting a text without separator gives the text. *)
Lemma split_plain (l : list byte) :
  Forall plain l -> split "$" (string_of_list_byte l) = [string_of_list_byte l].
Proof.
  induction 1 as [|b l [_ Hb] _ IH]; [reflexivity|].
  change (string_of_list_byte (b :: l))
    with (String (ascii_of_byte b) (string_of_list_byte l)).
  cbn [split]. rewrite IH, ascii_of_byte_not_dollar by done. reflexivity.
Qed.

(** Splitting at the first separator. *)
Lemma split_app (l : list byte) (s : string) :
  Forall plain l ->
  split "$" (string_of_list_byte l +:+ String "$" s)
  = string_of_list_byte l :: split "$" s.
Proof.
  induction 1 as [|b l [_ Hb] _ IH].
  - change (string_of_list_byte [] +:+ String "$" s) with (String "$" s).
    cbn [split]. destruct (split_cons "$" s) as (p & ps & E). rewrite E.
    reflexivity.
  - change (string_of_list_byte (b :: l) +:+ String "$" s)
      with (String (ascii_of_byte b) (string_of_list_byte l +:+ String "$" s)).
    cbn [split]. rewrite IH, ascii_of_byte_not_dollar by done. reflexivity.
Qed.

(** What [str.encode('utf-8')] returns and what it raises. *)
Lemma encode_utf8_Return (s : string) (bs : list byte) :
  encode_utf8 s = Return bs ->
  bs = list_byte_of_string s /\ has_surrogate (list_byte_of_string s) = false.
Proof.
  unfold encode_utf8. destruct (has_surrogate _); [discriminate|].
  by intros [= <-].
Qed.

Lemma encode_utf8_Raise (s : string) (e : exception) :
  encode_utf8 s = Raise e ->
  e = UnicodeEncodeError /\ has_surrogate (list_byte_of_string s) = true.
Proof.
  unfold encode_utf8. destruct (has_surrogate _); [|discriminate].
  by intros [= <-].
Qed.

Lemma try_except_ValueError (e : exception) :
  issubclass e ValueError = true ->
  try_except (Raise e) [ValueError; IndexError] false = Return false.
Proof. intros H. unfold try_except. cbn [existsb]. by rewrite H. Qed.

Section WithKdf.

Variable pbkdf2_hmac : string -> list byte -> list byte -> N -> list byte.

(** The value [hash_password] returns for a salt, when the password can be
    encoded. *)
Lemma hash_password_returns (password : string) (pwd salt : list byte) :
  encode_utf8 password = Return pwd ->
  hash_password pbkdf2_hmac password salt
  = Return (string_of_list_byte (b64encode salt) +:+ "$" +:+
            string_of_list_byte (b64encode (pbkdf2_hmac "sha256" pwd salt 100000))).
Proof.
  intros E. unfold hash_password. rewrite E. cbn [bind].
  rewrite !decode_ascii_b64encode. reflexivity.
Qed.

(** [hash_password] raises what the encoding of the password raises, and
    nothing else. *)
Lemma hash_password_raises (password : string) (salt : list byte) (e : exception) :
  hash_password pbkdf2_hmac password salt = Raise e <-> encode_utf8 password = Raise e.
Proof.
  unfold hash_password. destruct (encode_utf8 password) as [pwd|e']; cbn [bind].
  - rewrite !decode_ascii_b64encode. cbn [bind]. split; discriminate.
  - split; intros [= ->]; reflexivity.
Qed.

(** Verifying a candidate against a stored value made of a salt and a key:
    the key derived from the candidate is compared with the stored one; a
    candidate that cannot be encoded is refused. *)
Lemma verify_password_stored (candidate : string) (salt key : list byte) :
  verify_password pbkdf2_hmac candidate
    (string_of_list_byte (b64encode salt) +:+ "$" +:+
     string_of_list_byte (b64encode key))
  = match encode_utf8 candidate with
    | Return pwd => Return (bool_decide (pbkdf2_hmac "sha256" pwd salt 100000 = key))
    | Raise _ => Return false
    end.
Proof.
  unfold verify_password, verify_password_body.
  change ("$" +:+ ?s) with (String "$" s).
  rewrite split_app by apply b2a_base64_plain.
  rewrite split_plain by apply b2a_base64_plain.
  rewrite !b64decode_b64encode. cbn [bind].
  destruct (encode_utf8 candidate) as [pwd|e] eqn:E; cbn [bind]; [reflexivity|].
  apply encode_utf8_Raise in E as [-> _]. reflexivity.
Qed.



(** C6: [verify_password] never raises, and on a malformed stored value
    it returns [False], whatever the candidate. *)
Theorem verify_password_fail_closed (plain_password hashed_password : string) :
  (exists b, verify_password pbkdf2_hmac plain_password hashed_password = Return b) /\
  (malformed hashed_password ->
   verify_password pbkdf2_hmac plain_password hashed_password = Return false).
Proof.
  unfold verify_password, verify_password_body, malformed.
  destruct (split "$" hashed_password) as [|s [|h [|x l]]] eqn:E;
    try (split; [by eexists | by intros _]).
  destruct (b64decode s) as [salt|e1] eqn:Es.
  - destruct (b64decode h) as [stored_hash|e2] eqn:Eh; cbn [bind].
    + assert (~ (length [s; h] ≠ 2%nat \/
                 exists part e, part ∈ [s; h] /\ b64decode part = Raise e)) as Hwell.
      { intros [Hlen | (part & e & Hin & Hraise)]; [done|].
        apply elem_of_cons in Hin as [->|Hin]; [congruence|].
        apply list_elem_of_singleton in Hin as ->. congruence. }
      destruct (encode_utf8 plain_password) as [pwd|e] eqn:Ep; cbn [bind].
      * split; [by eexists | by intros Hm].
      * apply encode_utf8_Raise in Ep as [-> _]. split; [by eexists | done].
    + apply b64decode_raises in Eh.
      rewrite try_except_ValueError by done. split; [by eexists | done].
  - apply b64decode_raises in Es. cbn [bind].
    rewrite try_except_ValueError by done. split; [by eexists | done].
Qed.

End WithKdf.


Lemma verify_password_fail_closed_witness :
  verify_password toy_kdf "pw" "c2FsdA==" = Return false /\
  verify_password toy_kdf "pw" "c2FsdA==$cHdzYWx0$" = Return false /\
  verify_password toy_kdf "pw" "c2FsdA==$cHdzYWx" = Return false.
Proof.
  split_and!; apply verify_password_fail_closed.
  - left. vm_compute. discriminate.
  - left. vm_compute. discriminate.
  - right. exists "cHdzYWx", BinasciiError. split; [|by vm_compute].
    vm_compute. apply elem_of_cons; right. apply elem_of_cons; by left.
Defined.

End SecurityFacts.

(** ** Session tokens *)

Module AuthFacts.

Import Jwt Auth.

Lemma timegm_week (t : Z) : timegm (t + timedelta_days 7) = timegm t + 604800.
Proof.
  unfold timegm, timedelta_days, MICROSECONDS.
  replace (t + 7 * 24 * 60 * 60 * 1000000) with (t + 604800 * 1000000) by lia.
  by rewrite Z.div_add.
Qed.

Lemma timegm_le (t : Z) : timegm t * MICROSECONDS <= t.
Proof.
  unfold timegm, MICROSECONDS. rewrite Z.mul_comm. apply Z.mul_div_le. lia.
Qed.

Section WithSigner.

Variable sign : string -> list byte -> list byte -> list byte.
Variable signing_input : gmap string string -> gmap string json -> list byte.
Variable BETTER_AUTH_SECRET : string.

(** The claims of an issued token. *)
Lemma create_jwt_token_payload (user_id : string) (utcnow_iat utcnow_exp : Z) :
  exists t,
    create_jwt_token sign signing_input BETTER_AUTH_SECRET user_id utcnow_iat utcnow_exp
      = Return (Compact t) /\
    header t !! "alg" = Some "HS256" /\
    signature t = sign "HS256" (force_bytes BETTER_AUTH_SECRET)
                       (signing_input (header t) (payload t)) /\
    payload t !! "sub" = Some (JStr user_id) /\
    payload t !! "iat" = Some (JInt (timegm utcnow_iat)) /\
    payload t !! "exp" = Some (JInt (timegm utcnow_exp + 604800)).
Proof.
  unfold create_jwt_token, encode. cbn [fold_left].
  unfold convert_time_claim. simplify_map_eq.
  rewrite bool_decide_eq_true_2.
  - eexists. split; [reflexivity|]. cbn [header payload signature].
    rewrite !lookup_omap. simplify_map_eq. rewrite timegm_week. done.
  - intros k v Hk.
    repeat (rewrite lookup_insert in Hk;
            destruct (decide _); [by simplify_eq; eexists |]).
    rewrite lookup_singleton in Hk.
    destruct (decide _); [by simplify_eq; eexists | done].
Qed.

(** C7: a token issued for a subject, decoded with the same secret at a
    time not before it was issued and before its expiry (the whole second of
    the issue plus seven days, which is its [exp] claim), gives the subject
    back; so does [get_current_user_id] on a request that carries the token in
    the header or in the session cookie. *)
Theorem decode_user_id_create_jwt_token (S : string) (utcnow_iat utcnow_exp now : Z) :
  utcnow_iat <= now ->
  now < (timegm utcnow_exp + 604800) * MICROSECONDS ->
  exists tok,
    create_jwt_token sign signing_input BETTER_AUTH_SECRET S utcnow_iat utcnow_exp
      = Return tok /\
    decode_user_id sign signing_input BETTER_AUTH_SECRET tok now = Provides S /\
    get_current_user_id sign signing_input BETTER_AUTH_SECRET
      {| credentials := Some tok; cookies := ∅ |} now = Provides S /\
    get_current_user_id sign signing_input BETTER_AUTH_SECRET
      {| credentials := None; cookies := {[ "better-auth.session_token" := tok ]} |} now
      = Provides S.
Proof.
  intros Hiat Hexp.
  destruct (create_jwt_token_payload S utcnow_iat utcnow_exp)
    as (t & E & Halg & Hsig & Hsub & Hi & He).
  exists (Compact t). split; [exact E|].
  assert (decode_user_id sign signing_input BETTER_AUTH_SECRET (Compact t) now
          = Provides S) as Hd.
  { unfold decode_user_id, decode. rewrite Halg.
    rewrite bool_decide_eq_true_2 by (apply elem_of_cons; by left).
    rewrite bool_decide_eq_true_2 by done.
    unfold validate_claims, validate_iat, validate_exp, validate_sub.
    rewrite Hi, He, Hsub.
    pose proof (timegm_le utcnow_iat).
    destruct (decide (now < timegm utcnow_iat * MICROSECONDS)); [lia|].
    destruct (decide ((timegm utcnow_exp + 604800) * MICROSECONDS <= now)); [lia|].
    by rewrite Hsub. }
  split; [exact Hd|]. unfold get_current_user_id. cbn [credentials cookies].
  rewrite lookup_singleton_eq. by split.
Qed.

End WithSigner.

Lemma decode_user_id_create_jwt_token_witness :
  let sign := fun (_ : string) (key msg : list byte) => key ++ msg in
  let signing_input := fun (_ : gmap string string) (_ : gmap string json) => @nil byte in
  exists tok,
    create_jwt_token sign signing_input "secret" "user-1" 1500000 1500001 = Return tok /\
    decode_user_id sign signing_input "secret" tok 2000000 = Provides "user-1".
Proof.
  intros sign signing_input.
  destruct (decode_user_id_create_jwt_token sign signing_input "secret" "user-1"
              1500000 1500001 2000000) as (tok & E & Hd & _).
  - lia.
  - vm_compute. reflexivity.
  - exists tok. by split.
Defined.

End AuthFacts.

(** ** The task endpoints: what a user sees and what a request changes *)

Module TenancyFacts.

Import Routes Tenancy.

Ltac path_check := RoutesFacts.path_check.

(** The rows that a selection by owner returns. *)
Lemma select_by_user_spec (session : gmap Z Task) (U : string) (t : Task) :
  t ∈ Store.select_by_user session U <->
  exists k, session !! k = Some t /\ user_id t = U.
Proof.
  unfold Store.select_by_user.
  rewrite list_elem_of_In, filter_In, <- list_elem_of_In, list_elem_of_fmap.
  rewrite bool_decide_eq_true. split.
  - intros [([k t'] & -> & Hin) Hu]. exists k. split; [|done].
    by apply elem_of_map_to_list in Hin.
  - intros (k & Hk & Hu). split; [|done]. exists (k, t). split; [done|].
    by apply elem_of_map_to_list.
Qed.

(** Writing a row of another user under a key that holds no row of [B], or
    removing such a row, does not change the rows of [B]. *)
Lemma owned_by_insert_other (B : string) (session : gmap Z Task) (k : Z) (row : Task) :
  user_id row ≠ B ->
  (forall t, session !! k = Some t -> user_id t ≠ B) ->
  owned_by B (<[k := row]> session) = owned_by B session.
Proof.
  intros Hrow Hold. unfold owned_by.
  apply map_filter_insert_not'; [done|]. intros t Ht. by apply Hold.
Qed.

Lemma owned_by_delete_other (B : string) (session : gmap Z Task) (k : Z) :
  (forall t, session !! k = Some t -> user_id t ≠ B) ->
  owned_by B (delete k session) = owned_by B session.
Proof.
  intros Hold. unfold owned_by. apply map_filter_delete_not.
  intros t Ht. by apply Hold.
Qed.

(** X1: the list endpoint answers 200 with exactly the rows of the
    caller: every row it returns is in the table and belongs to the caller,
    and every row of the caller in the table is returned. *)
Theorem list_tasks_exactly_owned (U : string) (session : gmap Z Task) :
  exists l,
    list_tasks U U session = (Returns HTTP_200_OK l, session) /\
    forall t, t ∈ l <-> exists k, session !! k = Some t /\ user_id t = U.
Proof.
  unfold list_tasks. path_check. eexists. split; [reflexivity|].
  intros t. apply select_by_user_spec.
Qed.

(** X2: whatever a caller [A] asks of the four writing endpoints, under
    any path user and for any task, the rows of another user [B] are after
    the request what they were before. *)
Theorem other_users_rows_untouched (A B U : string) (task_id : Z) (task : TaskCreate)
    (task_update : TaskUpdate) (t1 t2 : Z) (session : gmap Z Task) :
  A ≠ B ->
  owned_by B (create_task U task A t1 t2 session).2 = owned_by B session /\
  owned_by B (update_task U task_id task_update A t1 session).2 = owned_by B session /\
  owned_by B (delete_task U task_id A session).2 = owned_by B session /\
  owned_by B (toggle_complete U task_id A t1 session).2 = owned_by B session.
Proof.
  intros Hne.
  unfold create_task, update_task, delete_task, toggle_complete, Store.get.
  destruct (decide (U ≠ A)) as [|HU]; [done|].
  apply dec_stable in HU. subst U. split_and!.
  - cbn [snd id]. apply owned_by_insert_other; [done|].
    intros t Ht. by rewrite StoreFacts.next_id_fresh in Ht.
  - destruct (session !! task_id) as [t|] eqn:Ht; [|done].
    destruct (decide (user_id t ≠ A)) as [|Hown]; [done|].
    apply dec_stable in Hown.
    destruct (flush _) as [row|] eqn:E; [|done].
    apply RoutesFacts.flush_owner in E as (_ & E & _). cbn [snd].
    apply owned_by_insert_other; [congruence|].
    intros t' Ht'. congruence.
  - destruct (session !! task_id) as [t|] eqn:Ht; [|done].
    destruct (decide (user_id t ≠ A)) as [|Hown]; [done|].
    apply dec_stable in Hown. cbn [snd].
    apply owned_by_delete_other. intros t' Ht'. congruence.
  - destruct (session !! task_id) as [t|] eqn:Ht; [|done].
    destruct (decide (user_id t ≠ A)) as [|Hown]; [done|].
    apply dec_stable in Hown. cbn [snd].
    apply owned_by_insert_other; [cbn; congruence|].
    intros t' Ht'. congruence.
Qed.

Lemma other_users_rows_untouched_witness :
  let t := {| id := 1; user_id := "bob"; title := "t"; description := None;
              completed := false; created_at := 1; updated_at := 1 |} in
  owned_by "bob" (delete_task "bob" 1 "alice" {[ 1 := t ]}).2 = owned_by "bob" {[ 1 := t ]} /\
  owned_by "bob" (delete_task "alice" 1 "alice" {[ 1 := t ]}).2 = owned_by "bob" {[ 1 := t ]}.
Proof.
  intros t. split.
  - refine (proj1 (proj2 (proj2
      (other_users_rows_untouched "alice" "bob" "bob" 1 (mkTaskCreate "x" None false)
         (mkTaskUpdate None None None) 2 3 {[ 1 := t ]} _)))).
    discriminate.
  - refine (proj1 (proj2 (proj2
      (other_users_rows_untouched "alice" "bob" "alice" 1 (mkTaskCreate "x" None false)
         (mkTaskUpdate None None None) 2 3 {[ 1 := t ]} _)))).
    discriminate.
Defined.

(** X3: a caller cannot update, delete or toggle a task that is stored
    for somebody else: for a task in the table whose owner is not the caller,
    the three endpoints answer 404 "Task not found" and the table is
    unchanged. *)
Theorem foreign_task_cannot_be_written (U : string) (task_id : Z) (t : Task)
    (task_update : TaskUpdate) (utcnow : Z) (session : gmap Z Task) :
  session !! task_id = Some t ->
  user_id t ≠ U ->
  update_task U task_id task_update U utcnow session
    = (HTTPException HTTP_404_NOT_FOUND "Task not found", session) /\
  delete_task U task_id U session
    = (HTTPException HTTP_404_NOT_FOUND "Task not found", session) /\
  toggle_complete U task_id U utcnow session
    = (HTTPException HTTP_404_NOT_FOUND "Task not found", session).
Proof.
  intros Hget Hforeign. unfold update_task, delete_task, toggle_complete, Store.get.
  destruct (decide (U ≠ U)) as [|_]; [done|].
  rewrite Hget.
  destruct (decide (user_id t ≠ U)) as [_|He]; [done|].
  by apply dec_stable in He.
Qed.

Lemma foreign_task_cannot_be_written_witness :
  let t := {| id := 7; user_id := "bob"; title := "t"; description := None;
              completed := false; created_at := 1; updated_at := 1 |} in
  update_task "alice" 7 (mkTaskUpdate (Some (Some "mine")) None None) "alice" 5 {[ 7 := t ]}
    = (HTTPException HTTP_404_NOT_FOUND "Task not found", {[ 7 := t ]}) /\
  delete_task "alice" 7 "alice" {[ 7 := t ]}
    = (HTTPException HTTP_404_NOT_FOUND "Task not found", {[ 7 := t ]}) /\
  toggle_complete "alice" 7 "alice" 5 {[ 7 := t ]}
    = (HTTPException HTTP_404_NOT_FOUND "Task not found", {[ 7 := t ]}).
Proof.
  intros t.
  apply (foreign_task_cannot_be_written "alice" 7 t
           (mkTaskUpdate (Some (Some "mine")) None None) 5 {[ 7 := t ]}).
  - apply lookup_singleton_eq.
  - discriminate.
Defined.


(** X5: deleting a task of the caller answers 204 and removes that row
    and no other; afterwards the task is not found by any of the four
    endpoints that name it, and it is not in the caller's list under that
    key. *)
Theorem delete_task_removes (U : string) (task_id : Z) (t : Task)
    (task_update : TaskUpdate) (utcnow : Z) (session : gmap Z Task) :
  session !! task_id = Some t ->
  user_id t = U ->
  exists session',
    delete_task U task_id U session = (Returns HTTP_204_NO_CONTENT tt, session') /\
    session' !! task_id = None /\
    (forall k, k ≠ task_id -> session' !! k = session !! k) /\
    S (size session') = size session /\
    get_task U task_id U session'
      = (HTTPException HTTP_404_NOT_FOUND "Task not found", session') /\
    update_task U task_id task_update U utcnow session'
      = (HTTPException HTTP_404_NOT_FOUND "Task not found", session') /\
    delete_task U task_id U session'
      = (HTTPException HTTP_404_NOT_FOUND "Task not found", session') /\
    toggle_complete U task_id U utcnow session'
      = (HTTPException HTTP_404_NOT_FOUND "Task not found", session').
Proof.
  intros Hget Hown. exists (delete task_id session).
  unfold delete_task at 1. unfold Store.get.
  destruct (decide (U ≠ U)) as [|_]; [done|]. rewrite Hget.
  destruct (decide (user_id t ≠ U)) as [|_]; [done|].
  split; [reflexivity|].
  split; [apply lookup_delete_eq|].
  split; [intros k Hk; by apply lookup_delete_ne|].
  split.
  { rewrite <- (insert_delete_id session task_id t Hget) at 2.
    by rewrite map_size_insert_None by apply lookup_delete_eq. }
  unfold get_task, update_task, delete_task, toggle_complete, Store.get.
  destruct (decide (U ≠ U)) as [|_]; [done|].
  by rewrite lookup_delete_eq.
Qed.

Lemma delete_task_removes_witness :
  let t := {| id := 1; user_id := "u1"; title := "t1"; description := None;
              completed := true; created_at := 5; updated_at := 6 |} in
  exists session',
    delete_task "u1" 1 "u1" {[ 1 := t ]} = (Returns HTTP_204_NO_CONTENT tt, session') /\
    get_task "u1" 1 "u1" session'
      = (HTTPException HTTP_404_NOT_FOUND "Task not found", session').
Proof.
  intros t.
  destruct (delete_task_removes "u1" 1 t (mkTaskUpdate None None None) 9 {[ 1 := t ]}
              (lookup_singleton_eq _ _) eq_refl)
    as (session' & Hd & _ & _ & _ & Hg & _).
  exists session'. by split.
Defined.

(** X6: a write can be read back.  When an update or a toggle answers
    with a row, that row is what [get_task] returns for the same task right
    after, and no other row of the table has changed. *)
Theorem write_then_get (U : string) (task_id : Z) (task_update : TaskUpdate)
    (utcnow : Z) (session session' : gmap Z Task) (status : Z) (row : Task) :
  update_task U task_id task_update U utcnow session = (Returns status row, session') \/
  toggle_complete U task_id U utcnow session = (Returns status row, session') ->
  get_task U task_id U session' = (Returns HTTP_200_OK row, session') /\
  (forall k, k ≠ task_id -> session' !! k = session !! k) /\
  size session' = size session.
Proof.
  unfold update_task, toggle_complete, Store.get.
  destruct (decide (U ≠ U)) as [|_]; [done|].
  destruct (session !! task_id) as [t|] eqn:Ht; [|by intros [?|?]].
  destruct (decide (user_id t ≠ U)) as [|Hown]; [by intros [?|?]|].
  apply dec_stable in Hown.
  assert (forall r : Task,
            user_id r = U ->
            get_task U task_id U (<[task_id := r]> session)
              = (Returns HTTP_200_OK r, <[task_id := r]> session) /\
            (forall k, k ≠ task_id -> <[task_id := r]> session !! k = session !! k) /\
            size (<[task_id := r]> session) = size session) as Hread.
  { intros r Hr. split_and!.
    - unfold get_task, Store.get. destruct (decide (U ≠ U)) as [|_]; [done|].
      rewrite lookup_insert_eq. by destruct (decide (user_id r ≠ U)).
    - intros k Hk. by apply lookup_insert_ne.
    - by eapply map_size_insert_Some. }
  intros [H|H].
  - destruct (flush _) as [r|] eqn:E; [|discriminate].
    apply RoutesFacts.flush_owner in E as (_ & E & _).
    injection H as _ <- <-. apply Hread. congruence.
  - injection H as _ <- <-. by apply Hread.
Qed.

Lemma write_then_get_witness :
  let t := {| id := 1; user_id := "u1"; title := "t1"; description := None;
              completed := false; created_at := 5; updated_at := 5 |} in
  let row := {| id := 1; user_id := "u1"; title := "t1"; description := None;
                completed := true; created_at := 5; updated_at := 8 |} in
  get_task "u1" 1 "u1" {[ 1 := row ]} = (Returns HTTP_200_OK row, {[ 1 := row ]}).
Proof.
  intros t row.
  refine (proj1 (write_then_get "u1" 1 (mkTaskUpdate None None None) 8
                   {[ 1 := t ]} {[ 1 := row ]} HTTP_200_OK row _)).
  right. vm_compute. reflexivity.
Defined.

(** X7: a request that fails changes nothing, and a read changes nothing.
    The two reading endpoints always leave the table as it is; a writing
    endpoint that answers with an exception (403, 404, or the failed commit
    of an update) leaves it as it is. *)
Theorem failed_request_changes_nothing (U A : string) (task_id : Z) (task : TaskCreate)
    (task_update : TaskUpdate) (t1 t2 : Z) (session : gmap Z Task) :
  (list_tasks U A session).2 = session /\
  (get_task U task_id A session).2 = session /\
  (body_of (create_task U task A t1 t2 session).1 = None ->
   (create_task U task A t1 t2 session).2 = session) /\
  (body_of (update_task U task_id task_update A t1 session).1 = None ->
   (update_task U task_id task_update A t1 session).2 = session) /\
  (body_of (delete_task U task_id A session).1 = None ->
   (delete_task U task_id A session).2 = session) /\
  (body_of (toggle_complete U task_id A t1 session).1 = None ->
   (toggle_complete U task_id A t1 session).2 = session).
Proof.
  unfold list_tasks, create_task, get_task, update_task, delete_task, toggle_complete,
    Store.get.
  destruct (decide (U ≠ A)) as [|_]; [done|].
  destruct (session !! task_id) as [t|]; [|done].
  destruct (decide (user_id t ≠ U)) as [|_]; [done|].
  destruct (flush _) as [row|]; by split_and!.
Qed.

(** X8: the [id] column stays the key of the table.  In a table where
    every row is stored under its [id], each of the four writing endpoints
    leaves a table of that kind, and a row returned by [get_task],
    [update_task] or [toggle_complete] carries the [task_id] of the request. *)
Theorem keyed_by_id_preserved (U A : string) (task_id : Z) (task : TaskCreate)
    (task_update : TaskUpdate) (t1 t2 : Z) (session : gmap Z Task) :
  keyed_by_id session ->
  keyed_by_id (create_task U task A t1 t2 session).2 /\
  keyed_by_id (update_task U task_id task_update A t1 session).2 /\
  keyed_by_id (delete_task U task_id A session).2 /\
  keyed_by_id (toggle_complete U task_id A t1 session).2 /\
  (forall row, body_of (get_task U task_id A session).1 = Some row -> id row = task_id) /\
  (forall row, body_of (update_task U task_id task_update A t1 session).1 = Some row ->
               id row = task_id) /\
  (forall row, body_of (toggle_complete U task_id A t1 session).1 = Some row ->
               id row = task_id).
Proof.
  intros Hkeyed.
  assert (forall k (r : Task), id r = k -> keyed_by_id (<[k := r]> session)) as Hins.
  { intros k r Hr k' t'. rewrite lookup_insert. destruct (decide (k = k')).
    - intros [= <-]. congruence.
    - apply Hkeyed. }
  unfold create_task, get_task, update_task, delete_task, toggle_complete, Store.get.
  destruct (decide (U ≠ A)) as [|_]; [by split_and!|].
  split; [by apply Hins|].
  destruct (session !! task_id) as [t|] eqn:Ht; [|by split_and!].
  pose proof (Hkeyed _ _ Ht) as Hid.
  destruct (decide (user_id t ≠ U)) as [|_]; [by split_and!|].
  assert (keyed_by_id (delete task_id session)) as Hdel.
  { intros k' t'. rewrite lookup_delete. destruct (decide (task_id = k')); [done|].
    apply Hkeyed. }
  destruct (flush _) as [row|] eqn:E.
  - apply RoutesFacts.flush_owner in E as (E & _).
    split_and!; cbn; try done.
    + apply Hins. congruence.
    + by apply Hins.
    + by intros r [= <-].
    + intros r [= <-]. congruence.
    + by intros r [= <-].
  - split_and!; cbn; try done.
    + by apply Hins.
    + by intros r [= <-].
    + by intros r [= <-].
Qed.

Lemma keyed_by_id_preserved_witness :
  keyed_by_id ∅ /\
  keyed_by_id (create_task "u1" (mkTaskCreate "t1" None false) "u1" 1 2 ∅).2.
Proof.
  assert (keyed_by_id ∅) as H0.
  { intros k t Hk. rewrite lookup_empty in Hk. discriminate. }
  split; [exact H0|].
  exact (proj1 (keyed_by_id_preserved "u1" "u1" 1 (mkTaskCreate "t1" None false)
                  (mkTaskUpdate None None None) 1 2 ∅ H0)).
Defined.

End TenancyFacts.

(** ** The stored form of a password *)

Module HashFacts.

Import Base64 Base64Facts Security SecurityFacts.

Section WithKdf.

Variable pbkdf2_hmac : string -> list byte -> list byte -> N -> list byte.

(** The two parts of a stored value made of two encodings. *)
Lemma split_encodings (a b : list byte) :
  split "$" (string_of_list_byte (b64encode a) +:+ "$" +:+
             string_of_list_byte (b64encode b))
  = [string_of_list_byte (b64encode a); string_of_list_byte (b64encode b)].
Proof.
  change ("$" +:+ ?s) with (String "$" s).
  rewrite split_app by apply b2a_base64_plain.
  by rewrite split_plain by apply b2a_base64_plain.
Qed.


(** A value [hash_password] returned was made from the encoded password. *)
Lemma hash_password_Return (password : string) (salt : list byte) (hashed : string) :
  hash_password pbkdf2_hmac password salt = Return hashed ->
  exists pwd,
    encode_utf8 password = Return pwd /\
    hashed = string_of_list_byte (b64encode salt) +:+ "$" +:+
             string_of_list_byte (b64encode (pbkdf2_hmac "sha256" pwd salt 100000)).
Proof.
  destruct (encode_utf8 password) as [pwd|e] eqn:E.
  - rewrite (hash_password_returns _ _ _ _ E). intros [= <-]. by exists pwd.
  - apply (hash_password_raises pbkdf2_hmac password salt) in E. rewrite E. discriminate.
Qed.

(** X9: a value [hash_password] returns has the form [salt$hash]: it
    splits at the separator into exactly two parts, the first decodes to the
    salt that was drawn and the second to the key derived from the encoded
    password, so it is not a malformed stored value. *)
Theorem hash_password_format (password : string) (salt : list byte) (hashed : string) :
  hash_password pbkdf2_hmac password salt = Return hashed ->
  exists pwd salt_b64 hash_b64,
    encode_utf8 password = Return pwd /\
    hashed = salt_b64 +:+ "$" +:+ hash_b64 /\
    split "$" hashed = [salt_b64; hash_b64] /\
    b64decode salt_b64 = Return salt /\
    b64decode hash_b64 = Return (pbkdf2_hmac "sha256" pwd salt 100000) /\
    ~ malformed hashed.
Proof.
  intros (pwd & E & ->)%hash_password_Return.
  exists pwd. eexists _, _. split; [exact E|].
  split; [reflexivity|]. unfold malformed. rewrite split_encodings.
  split; [reflexivity|]. rewrite !b64decode_b64encode.
  split; [reflexivity|]. split; [reflexivity|].
  intros [Hlen | (part & e & Hin & Hraise)]; [done|].
  apply elem_of_cons in Hin as [->|Hin].
  - by rewrite b64decode_b64encode in Hraise.
  - apply list_elem_of_singleton in Hin as ->.
    by rewrite b64decode_b64encode in Hraise.
Qed.

(** X10: a stored value determines its salt and its key.  Two values
    that [hash_password] returned are the same exactly when the two calls
    drew the same salt and derived the same key; so two calls that draw
    different salts never return the same value, also for the same
    password. *)
Theorem hash_password_same_value (P Q : string) (salt1 salt2 : list byte)
    (hashed1 hashed2 : string) :
  hash_password pbkdf2_hmac P salt1 = Return hashed1 ->
  hash_password pbkdf2_hmac Q salt2 = Return hashed2 ->
  exists p q,
    encode_utf8 P = Return p /\
    encode_utf8 Q = Return q /\
    (hashed1 = hashed2 <->
     salt1 = salt2 /\
     pbkdf2_hmac "sha256" p salt1 100000 = pbkdf2_hmac "sha256" q salt2 100000).
Proof.
  intros (p & EP & ->)%hash_password_Return (q & EQ & ->)%hash_password_Return.
  exists p, q. split; [exact EP|]. split; [exact EQ|]. split.
  - intros H. apply (f_equal (split "$")) in H.
    rewrite !split_encodings in H. injection H as Hs Hk.
    apply (f_equal b64decode) in Hs, Hk.
    rewrite !b64decode_b64encode in Hs, Hk. by simplify_eq.
  - intros [-> ->]. reflexivity.
Qed.

End WithKdf.

Lemma hash_password_format_witness :
  ~ malformed "c2FsdA==$cHdzYWx0".
Proof.
  destruct (hash_password_format toy_kdf "pw" (list_byte_of_string "salt")
              "c2FsdA==$cHdzYWx0" eq_refl)
    as (pwd & salt_b64 & hash_b64 & _ & _ & _ & _ & _ & Hm).
  exact Hm.
Defined.

Lemma hash_password_same_value_witness :
  hash_password toy_kdf "pw" (list_byte_of_string "salt")
  ≠ hash_password toy_kdf "pw" (list_byte_of_string "tlas").
Proof.
  destruct (hash_password_same_value toy_kdf "pw" "pw"
              (list_byte_of_string "salt") (list_byte_of_string "tlas")
              "c2FsdA==$cHdzYWx0" "dGxhcw==$cHd0bGFz" eq_refl eq_refl)
    as (p & q & _ & _ & H).
  intros E.
  change (Return "c2FsdA==$cHdzYWx0" = Return "dGxhcw==$cHd0bGFz") in E.
  assert ("c2FsdA==$cHdzYWx0" = "dGxhcw==$cHd0bGFz") as E' by congruence.
  apply H in E' as [E' _]. vm_compute in E'. discriminate.
Defined.

End HashFacts.

(** ** The session token of a request *)

Module TokenFacts.

Import Jwt Auth AuthFacts.

Section WithSigner.

Variable sign : string -> list byte -> list byte -> list byte.
Variable signing_input : gmap string string -> gmap string json -> list byte.
Variable BETTER_AUTH_SECRET : string.

(** The token of a request: the one of the header, else the session
    cookie. *)
Lemma get_current_user_id_token (request : Request) (now : Z) :
  get_current_user_id sign signing_input BETTER_AUTH_SECRET request now
  = match match credentials request with
          | Some c => Some c
          | None => cookies request !! "better-auth.session_token"
          end with
    | None | Some (Malformed "") =>
        Aborts HTTP_401_UNAUTHORIZED "No authentication credentials provided"
    | Some tok => decode_user_id sign signing_input BETTER_AUTH_SECRET tok now
    end.
Proof. reflexivity. Qed.

(** A token with the pinned algorithm and a signature made with the secret
    is judged on its claims. *)
Lemma decode_signed (t : Jws) (now : Z) :
  header t !! "alg" = Some "HS256" ->
  signature t = sign "HS256" (force_bytes BETTER_AUTH_SECRET)
                     (signing_input (header t) (payload t)) ->
  decode sign signing_input (Compact t) BETTER_AUTH_SECRET ["HS256"] now
  = match validate_claims (payload t) now with
    | Invalid e => Invalid e
    | Decoded _ => Decoded (payload t)
    end.
Proof.
  intros Halg Hsig. unfold decode. rewrite Halg.
  rewrite bool_decide_eq_true_2 by (apply elem_of_cons; by left).
  by rewrite bool_decide_eq_true_2.
Qed.

(** What an accepted token looks like. *)
Lemma decode_user_id_provides (tok : token) (now : Z) (user_id : string) :
  decode_user_id sign signing_input BETTER_AUTH_SECRET tok now = Provides user_id ->
  exists t,
    tok = Compact t /\
    header t !! "alg" = Some "HS256" /\
    signature t = sign "HS256" (force_bytes BETTER_AUTH_SECRET)
                       (signing_input (header t) (payload t)) /\
    payload t !! "sub" = Some (JStr user_id) /\
    (forall exp, payload t !! "exp" = Some (JInt exp) -> now < exp * MICROSECONDS) /\
    (forall iat, payload t !! "iat" = Some (JInt iat) -> iat * MICROSECONDS <= now).
Proof.
  destruct tok as [t|raw]; unfold decode_user_id, decode; [|discriminate].
  destruct (header t !! "alg") as [alg|] eqn:Ha; [|discriminate].
  destruct (bool_decide (alg ∈ ["HS256"])) eqn:Halg; [|discriminate].
  apply bool_decide_eq_true in Halg. apply list_elem_of_singleton in Halg as ->.
  destruct (bool_decide (_ = signature t)) eqn:Hsig; [|discriminate].
  apply bool_decide_eq_true in Hsig.
  unfold validate_claims, validate_iat, validate_exp, validate_sub.
  intros H. exists t. split; [reflexivity|]. split; [exact Ha|].
  split; [done|]. revert H.
  destruct (payload t !! "iat") as [[s|iat]|]; [discriminate | |].
  - destruct (decide (now < iat * MICROSECONDS)); [discriminate|].
    destruct (payload t !! "exp") as [[s|exp]|]; [discriminate | |].
    + destruct (decide (exp * MICROSECONDS <= now)); [discriminate|].
      destruct (payload t !! "sub") as [[sub|k]|] eqn:Hs;
        cbv beta iota; rewrite ?Hs; [|discriminate..].
      intros [= <-]. split; [reflexivity|].
      split; intros ? [= <-]; lia.
    + destruct (payload t !! "sub") as [[sub|k]|] eqn:Hs;
        cbv beta iota; rewrite ?Hs; [|discriminate..].
      intros [= <-]. split; [reflexivity|].
      split; [intros ? [=] | intros ? [= <-]; lia].
  - destruct (payload t !! "exp") as [[s|exp]|]; [discriminate | |].
    + destruct (decide (exp * MICROSECONDS <= now)); [discriminate|].
      destruct (payload t !! "sub") as [[sub|k]|] eqn:Hs;
        cbv beta iota; rewrite ?Hs; [|discriminate..].
      intros [= <-]. split; [reflexivity|].
      split; [intros ? [= <-]; lia | intros ? [=]].
    + destruct (payload t !! "sub") as [[sub|k]|] eqn:Hs;
        cbv beta iota; rewrite ?Hs; [|discriminate..].
      intros [= <-]. split; [reflexivity|].
      split; intros ? [=].
Qed.

(** A token that passes every check is accepted. *)
Lemma decode_user_id_accepts (t : Jws) (now : Z) (user_id : string) :
  header t !! "alg" = Some "HS256" ->
  signature t = sign "HS256" (force_bytes BETTER_AUTH_SECRET)
                     (signing_input (header t) (payload t)) ->
  payload t !! "sub" = Some (JStr user_id) ->
  (forall s, payload t !! "iat" ≠ Some (JStr s)) ->
  (forall s, payload t !! "exp" ≠ Some (JStr s)) ->
  (forall exp, payload t !! "exp" = Some (JInt exp) -> now < exp * MICROSECONDS) ->
  (forall iat, payload t !! "iat" = Some (JInt iat) -> iat * MICROSECONDS <= now) ->
  decode_user_id sign signing_input BETTER_AUTH_SECRET (Compact t) now = Provides user_id.
Proof.
  intros Halg Hsig Hsub Hi He Hexp Hiat. unfold decode_user_id.
  rewrite decode_signed by assumption.
  unfold validate_claims, validate_iat, validate_exp, validate_sub.
  destruct (payload t !! "iat") as [[s|iat]|] eqn:Ei.
  - by destruct (Hi s).
  - specialize (Hiat iat eq_refl).
    destruct (decide (now < iat * MICROSECONDS)) as [Hlt|_]; [lia|].
    destruct (payload t !! "exp") as [[s|exp]|] eqn:Ee.
    + by destruct (He s).
    + specialize (Hexp exp eq_refl).
      destruct (decide (exp * MICROSECONDS <= now)) as [Hle|_]; [lia|].
      rewrite Hsub. cbv beta iota. rewrite Hsub. reflexivity.
    + rewrite Hsub. cbv beta iota. rewrite Hsub. reflexivity.
  - destruct (payload t !! "exp") as [[s|exp]|] eqn:Ee.
    + by destruct (He s).
    + specialize (Hexp exp eq_refl).
      destruct (decide (exp * MICROSECONDS <= now)) as [Hle|_]; [lia|].
      rewrite Hsub. cbv beta iota. rewrite Hsub. reflexivity.
    + rewrite Hsub. cbv beta iota. rewrite Hsub. reflexivity.
Qed.

(** What a refusal of a token looks like. *)
Lemma decode_user_id_aborts (tok : token) (now : Z) (status_code : Z) (detail : string) :
  decode_user_id sign signing_input BETTER_AUTH_SECRET tok now
    = Aborts status_code detail ->
  status_code = HTTP_401_UNAUTHORIZED /\
  detail ∈ ["No authentication credentials provided";
            "Invalid authentication credentials";
            "Token has expired";
            "Invalid token"].
Proof.
  unfold decode_user_id.
  destruct (decode _ _ _ _ _ _) as [p|e].
  - destruct (p !! "sub") as [[s|n]|]; [discriminate | |];
      intros [= <- <-]; (split; [reflexivity|]); set_solver.
  - destruct e; intros [= <- <-]; (split; [reflexivity|]); set_solver.
Qed.

(** X11: the order of the two places a token is read from.  With a
    non-empty token in the [Authorization] header the answer is the one for
    that token, whatever the cookies hold; the session cookie is read only
    when there is no header; with neither, the answer is 401
    "No authentication credentials provided" at any time. *)
Theorem header_before_cookie (tok : token) (jar : gmap string token) (now : Z) :
  tok ≠ Malformed "" ->
  get_current_user_id sign signing_input BETTER_AUTH_SECRET
    {| credentials := Some tok; cookies := jar |} now
    = decode_user_id sign signing_input BETTER_AUTH_SECRET tok now /\
  get_current_user_id sign signing_input BETTER_AUTH_SECRET
    {| credentials := None; cookies := <["better-auth.session_token" := tok]> jar |} now
    = decode_user_id sign signing_input BETTER_AUTH_SECRET tok now /\
  get_current_user_id sign signing_input BETTER_AUTH_SECRET
    {| credentials := None; cookies := delete "better-auth.session_token" jar |} now
    = Aborts HTTP_401_UNAUTHORIZED "No authentication credentials provided" /\
  get_current_user_id sign signing_input BETTER_AUTH_SECRET
    {| credentials := Some (Malformed ""); cookies := jar |} now
    = Aborts HTTP_401_UNAUTHORIZED "No authentication credentials provided".
Proof.
  intros Hne. rewrite !get_current_user_id_token. cbn [credentials cookies].
  rewrite lookup_insert_eq, lookup_delete_eq.
  split_and!; try reflexivity; by destruct tok as [t|[|c s]].
Qed.

(** X12: every refusal of the dependency is a 401, with one of four
    messages. *)
Theorem get_current_user_id_refuses_with_401 (request : Request) (now : Z)
    (status_code : Z) (detail : string) :
  get_current_user_id sign signing_input BETTER_AUTH_SECRET request now
    = Aborts status_code detail ->
  status_code = HTTP_401_UNAUTHORIZED /\
  detail ∈ ["No authentication credentials provided";
            "Invalid authentication credentials";
            "Token has expired";
            "Invalid token"].
Proof.
  rewrite get_current_user_id_token.
  destruct (match credentials request with
            | Some c => Some c
            | None => cookies request !! "better-auth.session_token"
            end) as [[t|raw]|].
  - apply decode_user_id_aborts.
  - destruct raw as [|c s]; [|apply decode_user_id_aborts].
    intros [= <- <-]. split; [reflexivity|]. set_solver.
  - intros [= <- <-]. split; [reflexivity|]. set_solver.
Qed.

(** X13: which tokens are accepted.  Take a token with the header and
    the claim names of an issued token, whose time claims, where it has them,
    are integers, sent in the header or, by a request without header, in the
    session cookie.  The request is answered with a user exactly when the
    signature of the token is the one the secret gives, its [sub] claim is
    that user, its expiry, if it has one, is still to come, and its issue
    time, if it has one, is not in the future. *)
Theorem get_current_user_id_accepts_exactly (request : Request) (t : Jws) (now : Z)
    (user_id : string) :
  shaped_as_issued t ->
  credentials request = Some (Compact t) \/
  credentials request = None /\
  cookies request !! "better-auth.session_token" = Some (Compact t) ->
  get_current_user_id sign signing_input BETTER_AUTH_SECRET request now
    = Provides user_id
  <->
  signature t = sign "HS256" (force_bytes BETTER_AUTH_SECRET)
                     (signing_input (header t) (payload t)) /\
  payload t !! "sub" = Some (JStr user_id) /\
  (forall exp, payload t !! "exp" = Some (JInt exp) -> now < exp * MICROSECONDS) /\
  (forall iat, payload t !! "iat" = Some (JInt iat) -> iat * MICROSECONDS <= now).
Proof.
  intros (Hhdr & _ & Hi & He) Hsrc.
  assert (header t !! "alg" = Some "HS256") as Halg
    by (rewrite Hhdr; apply lookup_insert_eq).
  assert (get_current_user_id sign signing_input BETTER_AUTH_SECRET request now
          = decode_user_id sign signing_input BETTER_AUTH_SECRET (Compact t) now) as ->.
  { rewrite get_current_user_id_token.
    destruct Hsrc as [-> | [-> ->]]; reflexivity. }
  split.
  - intros H. apply decode_user_id_provides in H
      as (t' & [= <-] & _ & Hsig & Hsub & Hexp & Hiat).
    split; [exact Hsig|]. split; [exact Hsub|]. split; [exact Hexp | exact Hiat].
  - intros (Hsig & Hsub & Hexp & Hiat). by apply decode_user_id_accepts.
Qed.

(** X14: a forged token is answered with 401 "Invalid token".  A token
    that names no algorithm or another one than HS256, or whose signature is
    not the one the secret gives for its header and payload, is refused
    whatever its claims say, from the header as from the cookie. *)
Theorem forged_token_rejected (t : Jws) (jar : gmap string token) (now : Z) :
  header t !! "alg" ≠ Some "HS256" \/
  signature t ≠ sign "HS256" (force_bytes BETTER_AUTH_SECRET)
                     (signing_input (header t) (payload t)) ->
  get_current_user_id sign signing_input BETTER_AUTH_SECRET
    {| credentials := Some (Compact t); cookies := jar |} now
    = Aborts HTTP_401_UNAUTHORIZED "Invalid token" /\
  get_current_user_id sign signing_input BETTER_AUTH_SECRET
    {| credentials := None;
       cookies := <["better-auth.session_token" := Compact t]> jar |} now
    = Aborts HTTP_401_UNAUTHORIZED "Invalid token".
Proof.
  intros Hforged. rewrite !get_current_user_id_token. cbn [credentials cookies].
  rewrite lookup_insert_eq.
  assert (decode_user_id sign signing_input BETTER_AUTH_SECRET (Compact t) now
          = Aborts HTTP_401_UNAUTHORIZED "Invalid token") as ->; [|done].
  unfold decode_user_id, decode.
  destruct (header t !! "alg") as [alg|] eqn:Halg; [|done].
  destruct (bool_decide (alg ∈ ["HS256"])) eqn:Hin; [|done].
  apply bool_decide_eq_true in Hin. apply list_elem_of_singleton in Hin as ->.
  destruct Hforged as [Hne|Hne]; [done|].
  rewrite bool_decide_eq_false_2; [done|]. congruence.
Qed.

(** X15: a token is refused from its expiry on.  A token issued by
    [create_jwt_token], with a clock that does not go back between its two
    readings, and presented when the time has reached its [exp] claim (the
    whole second of the issue plus seven days) is answered with 401
    "Token has expired", from the header as from the cookie. *)
Theorem expired_token_rejected (S : string) (utcnow_iat utcnow_exp now : Z)
    (jar : gmap string token) :
  utcnow_iat <= utcnow_exp ->
  (timegm utcnow_exp + 604800) * MICROSECONDS <= now ->
  exists tok,
    create_jwt_token sign signing_input BETTER_AUTH_SECRET S utcnow_iat utcnow_exp
      = Return tok /\
    decode_user_id sign signing_input BETTER_AUTH_SECRET tok now
      = Aborts HTTP_401_UNAUTHORIZED "Token has expired" /\
    get_current_user_id sign signing_input BETTER_AUTH_SECRET
      {| credentials := Some tok; cookies := jar |} now
      = Aborts HTTP_401_UNAUTHORIZED "Token has expired" /\
    get_current_user_id sign signing_input BETTER_AUTH_SECRET
      {| credentials := None; cookies := <["better-auth.session_token" := tok]> jar |} now
      = Aborts HTTP_401_UNAUTHORIZED "Token has expired".
Proof.
  intros Hclock Hexp.
  destruct (create_jwt_token_payload sign signing_input BETTER_AUTH_SECRET
              S utcnow_iat utcnow_exp) as (t & E & Halg & Hsig & Hsub & Hi & He).
  exists (Compact t). split; [exact E|].
  assert (decode_user_id sign signing_input BETTER_AUTH_SECRET (Compact t) now
          = Aborts HTTP_401_UNAUTHORIZED "Token has expired") as Hd.
  { unfold decode_user_id. rewrite decode_signed by done.
    unfold validate_claims, validate_iat, validate_exp. rewrite Hi, He.
    assert (timegm utcnow_iat <= timegm utcnow_exp) as Hle.
    { unfold timegm, MICROSECONDS. apply Z.div_le_mono; lia. }
    unfold MICROSECONDS in *.
    destruct (decide (now < timegm utcnow_iat * 1000000)) as [Hlt|_]; [lia|].
    destruct (decide ((timegm utcnow_exp + 604800) * 1000000 <= now)) as [_|Hn];
      [reflexivity | lia]. }
  rewrite !get_current_user_id_token. cbn [credentials cookies].
  rewrite lookup_insert_eq. cbv beta iota.
  split; [exact Hd|]. split; exact Hd.
Qed.

End WithSigner.

Lemma header_before_cookie_witness :
  let sign := fun (_ : string) (key msg : list byte) => key ++ msg in
  let signing_input := fun (_ : gmap string string) (_ : gmap string json) => @nil byte in
  get_current_user_id sign signing_input "secret"
    {| credentials := Some (Malformed "abc");
       cookies := {[ "better-auth.session_token" := Malformed "def" ]} |} 0
  = decode_user_id sign signing_input "secret" (Malformed "abc") 0.
Proof.
  intros sign signing_input.
  refine (proj1 (header_before_cookie sign signing_input "secret" (Malformed "abc")
                   {[ "better-auth.session_token" := Malformed "def" ]} 0 _)).
  discriminate.
Defined.

Lemma get_current_user_id_refuses_with_401_witness :
  let sign := fun (_ : string) (key msg : list byte) => key ++ msg in
  let signing_input := fun (_ : gmap string string) (_ : gmap string json) => @nil byte in
  get_current_user_id sign signing_input "secret"
    {| credentials := Some (Malformed "abc"); cookies := ∅ |} 0
    = Aborts HTTP_401_UNAUTHORIZED "Invalid token" /\
  HTTP_401_UNAUTHORIZED = HTTP_401_UNAUTHORIZED /\
  "Invalid token" ∈ ["No authentication credentials provided";
                     "Invalid authentication credentials";
                     "Token has expired";
                     "Invalid token"].
Proof.
  intros sign signing_input. split; [reflexivity|].
  refine (get_current_user_id_refuses_with_401 sign signing_input "secret"
            {| credentials := Some (Malformed "abc"); cookies := ∅ |} 0
            HTTP_401_UNAUTHORIZED "Invalid token" _).
  reflexivity.
Defined.

Lemma get_current_user_id_accepts_exactly_witness :
  let sign := fun (_ : string) (key msg : list byte) => key ++ msg in
  let signing_input := fun (_ : gmap string string) (_ : gmap string json) => @nil byte in
  let t := {| header := <["alg" := "HS256"]> {["typ" := "JWT"]};
              payload := <["sub" := JStr "user-1"]> {["exp" := JInt 10]};
              signature := list_byte_of_string "secret" |} in
  get_current_user_id sign signing_input "secret"
    {| credentials := Some (Compact t); cookies := ∅ |} 5 = Provides "user-1" /\
  get_current_user_id sign signing_input "secret"
    {| credentials := None;
       cookies := {["better-auth.session_token" := Compact t]} |} 10000000
    ≠ Provides "user-1".
Proof.
  intros sign signing_input t.
  assert (shaped_as_issued t) as Hshape.
  { split; [reflexivity|]. split; [|split].
    - intros k v H. cbn [payload t] in H.
      apply lookup_insert_Some in H as [[<- _]|[_ H]]; [set_solver|].
      apply lookup_singleton_Some in H as [<- _]. set_solver.
    - intros s H. vm_compute in H. discriminate.
    - intros s H. vm_compute in H. discriminate. }
  split.
  - apply (get_current_user_id_accepts_exactly sign signing_input "secret"
             {| credentials := Some (Compact t); cookies := ∅ |} t 5 "user-1" Hshape).
    + by left.
    + split; [reflexivity|]. split; [reflexivity|]. split.
      * intros exp H. vm_compute in H. injection H as <-. reflexivity.
      * intros iat H. vm_compute in H. discriminate.
  - intros H.
    apply (get_current_user_id_accepts_exactly sign signing_input "secret"
             {| credentials := None;
                cookies := {["better-auth.session_token" := Compact t]} |}
             t 10000000 "user-1" Hshape) in H as (_ & _ & Hexp & _).
    + specialize (Hexp 10 eq_refl). vm_compute in Hexp. discriminate.
    + right. split; [reflexivity|]. apply lookup_singleton_eq.
Defined.

Lemma forged_token_rejected_witness :
  let sign := fun (_ : string) (key msg : list byte) => key ++ msg in
  let signing_input := fun (_ : gmap string string) (_ : gmap string json) => @nil byte in
  let t := {| header := {[ "alg" := "none" ]};
              payload := {[ "sub" := JStr "user-1" ]};
              signature := [] |} in
  get_current_user_id sign signing_input "secret"
    {| credentials := Some (Compact t); cookies := ∅ |} 5
  = Aborts HTTP_401_UNAUTHORIZED "Invalid token".
Proof.
  intros sign signing_input t.
  refine (proj1 (forged_token_rejected sign signing_input "secret" t ∅ 5 _)).
  left. vm_compute. discriminate.
Defined.

Lemma expired_token_rejected_witness :
  let sign := fun (_ : string) (key msg : list byte) => key ++ msg in
  let signing_input := fun (_ : gmap string string) (_ : gmap string json) => @nil byte in
  exists tok,
    create_jwt_token sign signing_input "secret" "user-1" 1500000 1500001 = Return tok /\
    decode_user_id sign signing_input "secret" tok 604801000000
      = Aborts HTTP_401_UNAUTHORIZED "Token has expired".
Proof.
  intros sign signing_input.
  destruct (expired_token_rejected sign signing_input "secret" "user-1"
              1500000 1500001 604801000000 ∅) as (tok & E & Hd & _).
  - lia.
  - vm_compute. discriminate.
  - exists tok. by split.
Defined.

End TokenFacts.

(** ** Accounts: signup, signin, the current user *)

Module AccountFacts.

Import Jwt Auth UserModels AuthRoutes.

(** The rows that a selection by email returns. *)
Lemma select_by_email_spec (session : gmap string User) (e : string) (u : User) :
  u ∈ UserStore.select_by_email session e <->
  exists k, session !! k = Some u /\ email u = e.
Proof.
  unfold UserStore.select_by_email.
  rewrite list_elem_of_In, filter_In, <- list_elem_of_In, list_elem_of_fmap.
  rewrite bool_decide_eq_true. split.
  - intros [([k u'] & -> & Hin) Hu]. exists k. split; [|done].
    by apply elem_of_map_to_list in Hin.
  - intros (k & Hk & Hu). split; [|done]. exists (k, u). split; [done|].
    by apply elem_of_map_to_list.
Qed.

(** No row is selected exactly when no row holds the email. *)
Lemma select_by_email_nil (session : gmap string User) (e : string) :
  UserStore.select_by_email session e = [] <->
  forall k u, session !! k = Some u -> email u ≠ e.
Proof.
  split.
  - intros E k u Hk He.
    assert (u ∈ UserStore.select_by_email session e) as Hin
      by (apply select_by_email_spec; eauto).
    rewrite E in Hin. by apply elem_of_nil in Hin.
  - intros Hfree.
    destruct (UserStore.select_by_email session e) as [|x l] eqn:E; [done|].
    assert (x ∈ UserStore.select_by_email session e) as Hin
      by (rewrite E; apply elem_of_cons; by left).
    apply select_by_email_spec in Hin as (k & Hk & He). by destruct (Hfree k x).
Qed.

(** The first selected row is a row of the table with the email. *)
Lemma first_select_by_email (session : gmap string User) (e : string) (u : User) :
  UserStore.first (UserStore.select_by_email session e) = Some u ->
  exists k, session !! k = Some u /\ email u = e.
Proof.
  unfold UserStore.first. intros H. apply select_by_email_spec.
  destruct (UserStore.select_by_email session e) as [|x l]; [discriminate H|].
  cbn in H. injection H as ->. apply elem_of_cons; by left.
Qed.

(** When one row only holds the email, it is the first selected row. *)
Lemma first_select_by_email_unique (session : gmap string User) (e : string)
    (k : string) (u : User) :
  session !! k = Some u ->
  email u = e ->
  (forall k' u', session !! k' = Some u' -> email u' = e -> u' = u) ->
  UserStore.first (UserStore.select_by_email session e) = Some u.
Proof.
  intros Hk He Hunique.
  destruct (UserStore.first (UserStore.select_by_email session e)) as [x|] eqn:E.
  - apply first_select_by_email in E as (k' & Hk' & He'). f_equal. eauto.
  - unfold UserStore.first in E.
    destruct (UserStore.select_by_email session e) as [|x l] eqn:El;
      [|discriminate E].
    pose proof (proj1 (select_by_email_nil session e) El k u Hk). done.
Qed.

Section WithLibraries.

Variable pbkdf2_hmac : string -> list byte -> list byte -> N -> list byte.
Variable sign : string -> list byte -> list byte -> list byte.
Variable signing_input : gmap string string -> gmap string json -> list byte.
Variable BETTER_AUTH_SECRET : string.

(** A token issued for a user is accepted for that user from its issue to
    its expiry. *)
Lemma decode_user_id_issued (t : Jws) (S : string) (utcnow_iat utcnow_exp now : Z) :
  header t !! "alg" = Some "HS256" ->
  signature t = sign "HS256" (force_bytes BETTER_AUTH_SECRET)
                     (signing_input (header t) (payload t)) ->
  payload t !! "sub" = Some (JStr S) ->
  payload t !! "iat" = Some (JInt (timegm utcnow_iat)) ->
  payload t !! "exp" = Some (JInt (timegm utcnow_exp + 604800)) ->
  utcnow_iat <= now ->
  now < (timegm utcnow_exp + 604800) * MICROSECONDS ->
  decode_user_id sign signing_input BETTER_AUTH_SECRET (Compact t) now = Provides S.
Proof.
  intros Halg Hsig Hsub Hi He Hiat Hexp.
  unfold decode_user_id. rewrite TokenFacts.decode_signed by done.
  unfold validate_claims, validate_iat, validate_exp, validate_sub.
  rewrite Hi, He, Hsub.
  pose proof (AuthFacts.timegm_le utcnow_iat).
  destruct (decide (now < timegm utcnow_iat * MICROSECONDS)); [lia|].
  destruct (decide ((timegm utcnow_exp + 604800) * MICROSECONDS <= now)); [lia|].
  by rewrite Hsub.
Qed.

(** What [signup] does with a free email, a password of six characters or
    more that can be encoded, and an unused identifier. *)
Lemma signup_fresh (user_data : UserCreate) (urandom : list byte) (uuid4 : string)
    (utcnow_created utcnow_updated utcnow_iat utcnow_exp : Z)
    (session : gmap string User) (pwd : list byte) :
  Security.encode_utf8 (uc_password user_data) = Return pwd ->
  (forall k u, session !! k = Some u -> email u ≠ uc_email user_data) ->
  (6 <= PyStr.len (uc_password user_data))%nat ->
  session !! uuid4 = None ->
  exists (t : Jws),
    let db_user :=
      {| id := uuid4; email := uc_email user_data; name := uc_name user_data;
         hashed_password :=
           string_of_list_byte (Base64.b64encode urandom) +:+ "$" +:+
           string_of_list_byte
             (Base64.b64encode (pbkdf2_hmac "sha256" pwd urandom 100000));
         created_at := utcnow_created; updated_at := utcnow_updated |} in
    signup pbkdf2_hmac sign signing_input BETTER_AUTH_SECRET user_data urandom uuid4
           utcnow_created utcnow_updated utcnow_iat utcnow_exp session
      = (Sent HTTP_201_CREATED {| token := Compact t; user := read db_user |}
              [session_cookie (Compact t)],
         <[uuid4 := db_user]> session) /\
    create_jwt_token sign signing_input BETTER_AUTH_SECRET uuid4 utcnow_iat utcnow_exp
      = Return (Compact t) /\
    header t !! "alg" = Some "HS256" /\
    signature t = sign "HS256" (force_bytes BETTER_AUTH_SECRET)
                       (signing_input (header t) (payload t)) /\
    payload t !! "sub" = Some (JStr uuid4) /\
    payload t !! "iat" = Some (JInt (timegm utcnow_iat)) /\
    payload t !! "exp" = Some (JInt (timegm utcnow_exp + 604800)).
Proof.
  intros Hpwd Hfree Hlen Hid.
  destruct (AuthFacts.create_jwt_token_payload sign signing_input BETTER_AUTH_SECRET
              uuid4 utcnow_iat utcnow_exp) as (t & E & Ht).
  exists t. cbn zeta. split; [|by split].
  unfold signup. apply select_by_email_nil in Hfree as Hnil. rewrite Hnil.
  cbn [UserStore.first head].
  destruct (Nat.ltb_spec (PyStr.len (uc_password user_data)) 6) as [|_]; [lia|].
  rewrite (SecurityFacts.hash_password_returns _ _ _ _ Hpwd).
  unfold UserStore.add_commit. cbn [id email]. rewrite Hid, Hnil, E. reflexivity.
Qed.

(** When [signup] has answered with a body, the email was free, the password
    had six characters or more and could be encoded, and the identifier was
    not in use. *)
Lemma signup_sent (user_data : UserCreate) (urandom : list byte) (uuid4 : string)
    (utcnow_created utcnow_updated utcnow_iat utcnow_exp : Z)
    (session session' : gmap string User) (status_code : Z) (body : UserResponse)
    (calls : list cookie_call) :
  signup pbkdf2_hmac sign signing_input BETTER_AUTH_SECRET user_data urandom uuid4
         utcnow_created utcnow_updated utcnow_iat utcnow_exp session
    = (Sent status_code body calls, session') ->
  exists pwd,
    Security.encode_utf8 (uc_password user_data) = Return pwd /\
    (forall k u, session !! k = Some u -> email u ≠ uc_email user_data) /\
    (6 <= PyStr.len (uc_password user_data))%nat /\
    session !! uuid4 = None.
Proof.
  unfold signup.
  destruct (UserStore.first _) as [x|] eqn:E; [discriminate|].
  assert (UserStore.select_by_email session (uc_email user_data) = []) as Hnil.
  { unfold UserStore.first in E.
    destruct (UserStore.select_by_email _ _); [done | discriminate E]. }
  destruct (Nat.ltb_spec (PyStr.len (uc_password user_data)) 6) as [Hlen|Hlen];
    [discriminate|].
  destruct (Security.encode_utf8 (uc_password user_data)) as [pwd|e] eqn:Ep.
  - rewrite (SecurityFacts.hash_password_returns _ _ _ _ Ep).
    unfold UserStore.add_commit. cbn [id email]. rewrite Hnil.
    destruct (session !! uuid4) as [y|] eqn:Hid; [discriminate|].
    intros _. exists pwd. split; [reflexivity|].
    split; [by apply select_by_email_nil|]. by split.
  - rewrite (proj2 (SecurityFacts.hash_password_raises pbkdf2_hmac
                      (uc_password user_data) urandom e) Ep).
    discriminate.
Qed.

(** X16: signing up with an email that a row of the table holds answers
    400 "Email already registered" and leaves the table as it is, whatever
    the password. *)
Theorem signup_email_taken (user_data : UserCreate) (urandom : list byte) (uuid4 : string)
    (utcnow_created utcnow_updated utcnow_iat utcnow_exp : Z)
    (session : gmap string User) (k : string) (u : User) :
  session !! k = Some u ->
  email u = uc_email user_data ->
  signup pbkdf2_hmac sign signing_input BETTER_AUTH_SECRET user_data urandom uuid4
         utcnow_created utcnow_updated utcnow_iat utcnow_exp session
    = (Rejected 400 "Email already registered", session).
Proof.
  intros Hk He. unfold signup.
  destruct (UserStore.first _) as [x|] eqn:E; [reflexivity|].
  unfold UserStore.first in E.
  destruct (UserStore.select_by_email session (uc_email user_data)) as [|x l] eqn:El;
    [|done].
  by pose proof (proj1 (select_by_email_nil _ _) El k u Hk).
Qed.




(** X20: [signup] keeps the two constraints of the users table: after
    it, every row is still stored under its [id] and no two rows hold the
    same email. *)
Theorem signup_keeps_constraints (user_data : UserCreate) (urandom : list byte)
    (uuid4 : string) (utcnow_created utcnow_updated utcnow_iat utcnow_exp : Z)
    (session : gmap string User) :
  UserStore.consistent session ->
  UserStore.consistent
    (signup pbkdf2_hmac sign signing_input BETTER_AUTH_SECRET user_data urandom uuid4
            utcnow_created utcnow_updated utcnow_iat utcnow_exp session).2.
Proof.
  intros Hsession. pose proof Hsession as [Hkey Hunique]. unfold signup.
  destruct (UserStore.first _) as [x|] eqn:E; [exact Hsession|].
  assert (UserStore.select_by_email session (uc_email user_data) = []) as Hnil.
  { unfold UserStore.first in E.
    destruct (UserStore.select_by_email _ _); [done | discriminate E]. }
  destruct (PyStr.len (uc_password user_data) <? 6)%nat; [exact Hsession|].
  destruct (Security.hash_password _ _ _) as [hashed|e]; [|exact Hsession].
  unfold UserStore.add_commit. cbn [id email]. rewrite Hnil.
  destruct (session !! uuid4) as [y|] eqn:Hid; [exact Hsession|].
  pose proof (proj1 (select_by_email_nil _ _) Hnil) as Hfree.
  assert (UserStore.consistent
            (<[uuid4 := {| id := uuid4; email := uc_email user_data;
                           name := uc_name user_data;
                           hashed_password := hashed;
                           created_at := utcnow_created;
                           updated_at := utcnow_updated |}]> session)) as Hc.
  { split.
    - intros k u. rewrite lookup_insert. destruct (decide (uuid4 = k)) as [<-|].
      + by intros [= <-].
      + apply Hkey.
    - intros k1 k2 u1 u2. rewrite !lookup_insert.
      destruct (decide (uuid4 = k1)) as [<-|], (decide (uuid4 = k2)) as [<-|];
        try done.
      + intros [= <-] H2 He. cbn in He. symmetry in He. by destruct (Hfree k2 u2).
      + intros H1 [= <-] He. cbn in He. by destruct (Hfree k1 u1).
      + apply Hunique. }
  destruct (create_jwt_token _ _ _ _ _ _); exact Hc.
Qed.


(** X22: a user who has signed up can sign in.  When [signup] has
    answered with a body, [signin] with the same email and password answers
    200 with the same user and a token for the same identifier; with another
    password, one that cannot be encoded or whose derived key under the stored
    salt differs, it answers 401 "Invalid email or password"; and a second
    [signup] with the same email answers 400 and changes nothing. *)
Theorem signup_then_signin (user_data : UserCreate) (urandom urandom' : list byte)
    (uuid4 uuid4' : string) (other : string)
    (utcnow_created utcnow_updated utcnow_iat utcnow_exp : Z)
    (utcnow_iat' utcnow_exp' : Z) (session session' : gmap string User)
    (status_code : Z) (body : UserResponse) (calls : list cookie_call) :
  signup pbkdf2_hmac sign signing_input BETTER_AUTH_SECRET user_data urandom uuid4
         utcnow_created utcnow_updated utcnow_iat utcnow_exp session
    = (Sent status_code body calls, session') ->
  exists tok' pwd,
    Security.encode_utf8 (uc_password user_data) = Return pwd /\
    create_jwt_token sign signing_input BETTER_AUTH_SECRET uuid4 utcnow_iat' utcnow_exp'
      = Return tok' /\
    signin pbkdf2_hmac sign signing_input BETTER_AUTH_SECRET
           {| ul_email := uc_email user_data; ul_password := uc_password user_data |}
           utcnow_iat' utcnow_exp' session'
      = Sent 200 {| token := tok'; user := user body |} [session_cookie tok'] /\
    (match Security.encode_utf8 other with
     | Return q =>
         pbkdf2_hmac "sha256" q urandom 100000 ≠ pbkdf2_hmac "sha256" pwd urandom 100000
     | Raise _ => True
     end ->
     signin pbkdf2_hmac sign signing_input BETTER_AUTH_SECRET
            {| ul_email := uc_email user_data; ul_password := other |}
            utcnow_iat' utcnow_exp' session'
       = Rejected 401 "Invalid email or password") /\
    signup pbkdf2_hmac sign signing_input BETTER_AUTH_SECRET user_data urandom' uuid4'
           utcnow_created utcnow_updated utcnow_iat utcnow_exp session'
      = (Rejected 400 "Email already registered", session').
Proof.
  intros Hsent.
  destruct (signup_sent _ _ _ _ _ _ _ _ _ _ _ _ Hsent) as (pwd & Hpwd & Hfree & Hlen & Hid).
  destruct (signup_fresh user_data urandom uuid4 utcnow_created utcnow_updated
              utcnow_iat utcnow_exp session pwd Hpwd Hfree Hlen Hid) as (t & E & _).
  cbn zeta in E. rewrite E in Hsent. injection Hsent as _ <- _ <-.
  destruct (AuthFacts.create_jwt_token_payload sign signing_input BETTER_AUTH_SECRET
              uuid4 utcnow_iat' utcnow_exp') as (t' & Et' & _).
  exists (Compact t'), pwd. split; [exact Hpwd|]. split; [exact Et'|].
  clear E.
  set (db_user := {| id := uuid4; email := uc_email user_data;
                     name := uc_name user_data;
                     hashed_password :=
                       string_of_list_byte (Base64.b64encode urandom) +:+ "$" +:+
                       string_of_list_byte
                         (Base64.b64encode (pbkdf2_hmac "sha256" pwd urandom 100000));
                     created_at := utcnow_created; updated_at := utcnow_updated |}).
  assert (UserStore.first
            (UserStore.select_by_email (<[uuid4 := db_user]> session)
               (uc_email user_data)) = Some db_user) as Hfirst.
  { apply (first_select_by_email_unique _ _ uuid4).
    - apply lookup_insert_eq.
    - reflexivity.
    - intros k' u'. rewrite lookup_insert.
      destruct (decide (uuid4 = k')); [by intros [= <-]|].
      intros Hk' He'. by destruct (Hfree k' u'). }
  split_and!.
  - unfold signin. cbn [ul_email ul_password]. rewrite Hfirst.
    subst db_user. cbn [hashed_password id user].
    rewrite SecurityFacts.verify_password_stored, Hpwd.
    rewrite bool_decide_eq_true_2 by reflexivity.
    rewrite Et'. reflexivity.
  - intros Hother. unfold signin. cbn [ul_email ul_password]. rewrite Hfirst.
    subst db_user. cbn [hashed_password id].
    rewrite SecurityFacts.verify_password_stored.
    destruct (Security.encode_utf8 other) as [q|e]; [|reflexivity].
    rewrite bool_decide_eq_false_2 by exact Hother. reflexivity.
  - unfold signup. rewrite Hfirst. reflexivity.
Qed.

(** X23: the answer to [signup] opens a session.  When [signup] has
    answered with a body, it has set one cookie, the session cookie, whose
    value is the token of the body; and a request made from the issue of the
    token to its expiry, that carries the token in the [Authorization]
    header, or the cookie and no header, is answered by [/me] with 200 and
    the user of the signup body. *)
Theorem signup_then_me (user_data : UserCreate) (urandom : list byte) (uuid4 : string)
    (utcnow_created utcnow_updated utcnow_iat utcnow_exp now : Z)
    (session session' : gmap string User)
    (status_code : Z) (body : UserResponse) (calls : list cookie_call) :
  signup pbkdf2_hmac sign signing_input BETTER_AUTH_SECRET user_data urandom uuid4
         utcnow_created utcnow_updated utcnow_iat utcnow_exp session
    = (Sent status_code body calls, session') ->
  utcnow_iat <= now ->
  now < (timegm utcnow_exp + 604800) * MICROSECONDS ->
  status_code = 201 /\
  calls = [set_cookie "better-auth.session_token" (token body) true true "none" 604800] /\
  get_current_user_id sign signing_input BETTER_AUTH_SECRET
    {| credentials := None;
       cookies := {[ "better-auth.session_token" := token body ]} |} now
    = Provides uuid4 /\
  me sign signing_input BETTER_AUTH_SECRET
     {| credentials := None;
        cookies := {[ "better-auth.session_token" := token body ]} |} now session'
    = Sent 200 (user body) [] /\
  me sign signing_input BETTER_AUTH_SECRET
     {| credentials := Some (token body); cookies := ∅ |} now session'
    = Sent 200 (user body) [].
Proof.
  intros Hsent Hiat Hexp.
  destruct (signup_sent _ _ _ _ _ _ _ _ _ _ _ _ Hsent) as (pwd & Hpwd & Hfree & Hlen & Hid).
  destruct (signup_fresh user_data urandom uuid4 utcnow_created utcnow_updated
              utcnow_iat utcnow_exp session pwd Hpwd Hfree Hlen Hid)
    as (t & E & _ & Halg & Hsig & Hsub & Hi & He).
  cbn zeta in E. rewrite E in Hsent. injection Hsent as <- <- <- <-.
  clear E. cbn [token user].
  pose proof (decode_user_id_issued t uuid4 utcnow_iat utcnow_exp now
                Halg Hsig Hsub Hi He Hiat Hexp) as Hd.
  assert (get_current_user_id sign signing_input BETTER_AUTH_SECRET
            {| credentials := None;
               cookies := {[ "better-auth.session_token" := Compact t ]} |} now
          = Provides uuid4) as Hcookie.
  { rewrite TokenFacts.get_current_user_id_token. cbn [credentials cookies].
    rewrite lookup_singleton_eq. exact Hd. }
  assert (get_current_user_id sign signing_input BETTER_AUTH_SECRET
            {| credentials := Some (Compact t); cookies := ∅ |} now
          = Provides uuid4) as Hheader.
  { rewrite TokenFacts.get_current_user_id_token. exact Hd. }
  split; [reflexivity|]. split; [reflexivity|]. split; [exact Hcookie|].
  unfold me. rewrite Hcookie, Hheader.
  unfold get_current_user, UserStore.get. rewrite lookup_insert_eq.
  split; reflexivity.
Qed.

(** X24: a token for a user who has no row.  [/me] answers a request
    that carries a token issued for an identifier that is not in the table,
    presented between its issue and its expiry, with 404 "User not found";
    and a request without token with 401. *)
Theorem me_user_not_found (S : string) (utcnow_iat utcnow_exp now : Z)
    (session : gmap string User) :
  utcnow_iat <= now ->
  now < (timegm utcnow_exp + 604800) * MICROSECONDS ->
  session !! S = None ->
  exists tok,
    create_jwt_token sign signing_input BETTER_AUTH_SECRET S utcnow_iat utcnow_exp
      = Return tok /\
    me sign signing_input BETTER_AUTH_SECRET
       {| credentials := Some tok; cookies := ∅ |} now session
      = Rejected 404 "User not found" /\
    me sign signing_input BETTER_AUTH_SECRET
       {| credentials := None; cookies := ∅ |} now session
      = Rejected 401 "No authentication credentials provided".
Proof.
  intros Hiat Hexp Hnone.
  destruct (AuthFacts.create_jwt_token_payload sign signing_input BETTER_AUTH_SECRET
              S utcnow_iat utcnow_exp) as (t & E & Halg & Hsig & Hsub & Hi & He).
  exists (Compact t). split; [exact E|].
  pose proof (decode_user_id_issued t S utcnow_iat utcnow_exp now
                Halg Hsig Hsub Hi He Hiat Hexp) as Hd.
  unfold me. rewrite !TokenFacts.get_current_user_id_token.
  cbn [credentials cookies]. rewrite Hd, lookup_empty.
  unfold get_current_user, UserStore.get. rewrite Hnone. by split.
Qed.

(** X25: [signout] deletes the cookie that [signin] sets.  Whenever
    [signin] answers with a cookie, [signout] answers 200 with the message
    "Successfully signed out" and deletes the cookie of the same name, with
    the same HttpOnly, Secure and SameSite attributes. *)
Theorem signout_deletes_signin_cookie (credentials : UserLogin)
    (utcnow_iat utcnow_exp : Z) (session : gmap string User)
    (status_code : Z) (body : UserResponse) (key : string) (value : Jwt.token)
    (httponly secure : bool) (samesite : string) (max_age : Z) :
  signin pbkdf2_hmac sign signing_input BETTER_AUTH_SECRET credentials
         utcnow_iat utcnow_exp session
    = Sent status_code body [set_cookie key value httponly secure samesite max_age] ->
  signout = Sent 200 "Successfully signed out"
                 [delete_cookie key httponly secure samesite] /\
  value = token body /\
  max_age = 604800.
Proof.
  unfold signin.
  destruct (UserStore.first _) as [u|]; [|discriminate].
  destruct (Security.verify_password _ _ _) as [[|]|]; [|discriminate..].
  destruct (create_jwt_token _ _ _ _ _ _) as [tok|]; [|discriminate].
  intros H. injection H as _ <- <- <- <- <- <- <-. by split_and!.
Qed.

End WithLibraries.

Lemma signup_email_taken_witness :
  let sign := fun (_ : string) (key msg : list byte) => key ++ msg in
  let signing_input := fun (_ : gmap string string) (_ : gmap string json) => @nil byte in
  let u := {| id := "id-1"; email := "a@x.com"; name := None;
              hashed_password := "c2FsdA==$cHdzYWx0";
              created_at := 1; updated_at := 1 |} in
  signup Security.toy_kdf sign signing_input "secret"
         {| uc_email := "a@x.com"; uc_password := "secret1"; uc_name := None |}
         (list_byte_of_string "salt") "id-2" 2 3 4 5 {[ "id-1" := u ]}
    = (Rejected 400 "Email already registered", {[ "id-1" := u ]}).
Proof.
  intros sign signing_input u.
  refine (signup_email_taken Security.toy_kdf sign signing_input "secret" _ _ _ 2 3 4 5
            {[ "id-1" := u ]} "id-1" u _ _).
  - apply lookup_singleton_eq.
  - reflexivity.
Defined.



Lemma signup_keeps_constraints_witness :
  let sign := fun (_ : string) (key msg : list byte) => key ++ msg in
  let signing_input := fun (_ : gmap string string) (_ : gmap string json) => @nil byte in
  UserStore.consistent ∅ /\
  UserStore.consistent
    (signup Security.toy_kdf sign signing_input "secret"
            {| uc_email := "a@x.com"; uc_password := "secret1"; uc_name := None |}
            (list_byte_of_string "salt") "id-1" 2 3 4 5 ∅).2.
Proof.
  intros sign signing_input.
  assert (UserStore.consistent ∅) as H0.
  { split.
    - intros k u Hk. rewrite lookup_empty in Hk. discriminate.
    - intros k1 k2 u1 u2 Hk. rewrite lookup_empty in Hk. discriminate. }
  split; [exact H0|].
  exact (signup_keeps_constraints Security.toy_kdf sign signing_input "secret" _ _ _
           2 3 4 5 ∅ H0).
Defined.

Lemma signup_then_signin_witness :
  let sign := fun (_ : string) (key msg : list byte) => key ++ msg in
  let signing_input := fun (_ : gmap string string) (_ : gmap string json) => @nil byte in
  let session' :=
    (signup Security.toy_kdf sign signing_input "secret"
            {| uc_email := "a@x.com"; uc_password := "secret1"; uc_name := None |}
            (list_byte_of_string "salt") "id-1" 2 3 4 5 ∅).2 in
  (exists tok',
     signin Security.toy_kdf sign signing_input "secret"
            {| ul_email := "a@x.com"; ul_password := "secret1" |} 6 7 session'
       = Sent 200 {| token := tok';
                     user := {| ur_id := "id-1"; ur_email := "a@x.com";
                                ur_name := None;
                                ur_created_at := 2; ur_updated_at := 3 |} |}
              [session_cookie tok']) /\
  signin Security.toy_kdf sign signing_input "secret"
         {| ul_email := "a@x.com"; ul_password := "wrong" |} 6 7 session'
    = Rejected 401 "Invalid email or password" /\
  signin Security.toy_kdf sign signing_input "secret"
         {| ul_email := "a@x.com"; ul_password := Security.lone_surrogate |} 6 7 session'
    = Rejected 401 "Invalid email or password".
Proof.
  intros sign signing_input. cbv zeta.
  pose (tok := match create_jwt_token sign signing_input "secret" "id-1" 4 5 with
               | Return tok => tok
               | Raise _ => Malformed ""
               end).
  pose (db_user := {| id := "id-1"; email := "a@x.com"; name := None;
                      hashed_password := "c2FsdA==$c2VjcmV0MXNhbHQ=";
                      created_at := 2; updated_at := 3 |}).
  assert (signup Security.toy_kdf sign signing_input "secret"
            {| uc_email := "a@x.com"; uc_password := "secret1"; uc_name := None |}
            (list_byte_of_string "salt") "id-1" 2 3 4 5 ∅
          = (Sent 201 {| token := tok; user := read db_user |} [session_cookie tok],
             <["id-1" := db_user]> ∅)) as E by (vm_compute; reflexivity).
  rewrite E. cbn [snd].
  destruct (signup_then_signin Security.toy_kdf sign signing_input "secret" _ _
              (list_byte_of_string "tlas") _ "id-2" "wrong" _ _ _ _ 6 7 _ _ _ _ _ E)
    as (tok' & pwd & Hpwd & _ & Hin & Hwrong & _).
  destruct (signup_then_signin Security.toy_kdf sign signing_input "secret" _ _
              (list_byte_of_string "tlas") _ "id-2" Security.lone_surrogate
              _ _ _ _ 6 7 _ _ _ _ _ E)
    as (tok2 & pwd2 & _ & _ & _ & Hsurrogate & _).
  injection Hpwd as <-.
  split; [exists tok'; exact Hin|]. split.
  - apply Hwrong. vm_compute. discriminate.
  - apply Hsurrogate. vm_compute. exact I.
Defined.

Lemma signup_then_me_witness :
  let sign := fun (_ : string) (key msg : list byte) => key ++ msg in
  let signing_input := fun (_ : gmap string string) (_ : gmap string json) => @nil byte in
  let reply :=
    signup Security.toy_kdf sign signing_input "secret"
           {| uc_email := "a@x.com"; uc_password := "secret1"; uc_name := None |}
           (list_byte_of_string "salt") "id-1" 2 3 1500000 1500001 ∅ in
  exists body calls,
    reply.1 = Sent 201 body calls /\
    me sign signing_input "secret"
       {| credentials := Some (token body); cookies := ∅ |} 2000000 reply.2
      = Sent 200 {| ur_id := "id-1"; ur_email := "a@x.com"; ur_name := None;
                    ur_created_at := 2; ur_updated_at := 3 |} [].
Proof.
  intros sign signing_input. cbv zeta.
  pose (tok := match create_jwt_token sign signing_input "secret" "id-1"
                       1500000 1500001 with
               | Return tok => tok
               | Raise _ => Malformed ""
               end).
  pose (db_user := {| id := "id-1"; email := "a@x.com"; name := None;
                      hashed_password := "c2FsdA==$c2VjcmV0MXNhbHQ=";
                      created_at := 2; updated_at := 3 |}).
  assert (signup Security.toy_kdf sign signing_input "secret"
            {| uc_email := "a@x.com"; uc_password := "secret1"; uc_name := None |}
            (list_byte_of_string "salt") "id-1" 2 3 1500000 1500001 ∅
          = (Sent 201 {| token := tok; user := read db_user |} [session_cookie tok],
             <["id-1" := db_user]> ∅)) as E by (vm_compute; reflexivity).
  rewrite E. cbn [fst snd].
  destruct (signup_then_me Security.toy_kdf sign signing_input "secret" _ _ _ _ _ _ _
              2000000 _ _ _ _ _ E) as (_ & _ & _ & _ & Hme).
  - lia.
  - vm_compute. reflexivity.
  - eexists _, _. split; [reflexivity|]. exact Hme.
Defined.

Lemma me_user_not_found_witness :
  let sign := fun (_ : string) (key msg : list byte) => key ++ msg in
  let signing_input := fun (_ : gmap string string) (_ : gmap string json) => @nil byte in
  exists tok,
    create_jwt_token sign signing_input "secret" "user-1" 1500000 1500001 = Return tok /\
    me sign signing_input "secret"
       {| credentials := Some tok; cookies := ∅ |} 2000000 ∅
      = Rejected 404 "User not found".
Proof.
  intros sign signing_input.
  destruct (me_user_not_found sign signing_input "secret" "user-1"
              1500000 1500001 2000000 ∅) as (tok & E & Hme & _).
  - lia.
  - vm_compute. reflexivity.
  - apply lookup_empty.
  - exists tok. by split.
Defined.

Lemma signout_deletes_signin_cookie_witness :
  let sign := fun (_ : string) (key msg : list byte) => key ++ msg in
  let signing_input := fun (_ : gmap string string) (_ : gmap string json) => @nil byte in
  signout = Sent 200 "Successfully signed out"
                 [delete_cookie "better-auth.session_token" true true "none"].
Proof.
  intros sign signing_input.
  pose (u := {| id := "id-1"; email := "a@x.com"; name := None;
                hashed_password := "c2FsdA==$cHdzYWx0";
                created_at := 1; updated_at := 1 |}).
  refine (proj1 (signout_deletes_signin_cookie Security.toy_kdf sign signing_input
                   "secret" {| ul_email := "a@x.com"; ul_password := "pw" |} 6 7
                   {[ "id-1" := u ]} 200 _ "better-auth.session_token" _
                   true true "none" 604800 _)).
  vm_compute. reflexivity.
Defined.

End AccountFacts.

(** ** Requests: from the session token to the tasks *)

Module AppFacts.

Import Jwt Auth Routes.

Section WithLibraries.

Variable pbkdf2_hmac : string -> list byte -> list byte -> N -> list byte.
Variable sign : string -> list byte -> list byte -> list byte.
Variable signing_input : gmap string string -> gmap string json -> list byte.
Variable BETTER_AUTH_SECRET : string.


End WithLibraries.


End AppFacts.
